(** * SerpAPI travel server: the request/response pipeline of [main.py]

    A shallow embedding of [make_serpapi_request], [search_flights] and
    [search_hotels], and the properties of the pipeline that the
    specification states about them.

    Python values are embedded as the type [json]; a [dict] is an
    association list in insertion order; a [str] is a [string] whose
    characters are read as code points below 256. The network is an oracle
    from the query that is sent to the response that comes back, and every
    request that reaches it is recorded in a log. Log lines are left out,
    apart from the values that they evaluate; cancellation of a coroutine is
    outside the model. *)

From Stdlib Require Import ZArith List String Ascii Bool Lia.
From Stdlib Require Import Floats.SpecFloat DecimalString.
Import ListNotations.

Local Open Scope string_scope.
Local Open Scope Z_scope.

Set Warnings "-register-all".

(** ** Python values *)

(** The values that [json.loads] produces and [json.dumps] accepts. A Python
    [float] is an IEEE 754 binary64 number. *)
Inductive json : Type :=
| JNull
| JBool (b : bool)
| JInt (n : Z)
| JFloat (f : spec_float)
| JStr (s : string)
| JArr (items : list json)
| JObj (fields : list (string * json)).

(** A [dict] with string keys, in insertion order. *)
Definition dict := list (string * json).

Inductive exn_class :=
| TypeError
| AttributeError
| ValueError
| OverflowError
| KeyError
| JSONDecodeError
| TransportError.

(** What [response.json()] gives: the parsed body, or the text of the
    exception raised on a body that is not JSON. *)
Inductive body :=
| Parsed (doc : json)
| NotJson (msg : string).

(** An [httpx.Response], as far as the code looks at it. [reason] is the text
    that [raise_for_status] gives its exception for this response (it names
    the status and the URL). *)
Record response := Response {
  status_code : Z;
  reason : string;
  content : body
}.

(** Exceptions: every class below derives from [Exception]. An
    [HTTPStatusError] carries the response it was raised for. *)
Inductive exn :=
| HTTPStatusError (msg : string) (resp : response)
| Exc (cls : exn_class) (msg : string).

(** [str(e)] *)
Definition str_exn (e : exn) : string :=
  match e with
  | HTTPStatusError msg _ => msg
  | Exc _ msg => msg
  end.

Inductive outcome (A : Type) :=
| Ok (a : A)
| Raise (e : exn).
Arguments Ok {A} a.
Arguments Raise {A} e.

Module Py.

(** [type(v).__name__] *)
Definition type_name (v : json) : string :=
  match v with
  | JNull => "NoneType"
  | JBool _ => "bool"
  | JInt _ => "int"
  | JFloat _ => "float"
  | JStr _ => "str"
  | JArr _ => "list"
  | JObj _ => "dict"
  end.

(** [bool(v)], the test of [if v:] and [not v]. *)
Definition truthy (v : json) : bool :=
  match v with
  | JNull => false
  | JBool b => b
  | JInt n => negb (n =? 0)
  | JFloat (S754_zero _) => false
  | JFloat _ => true
  | JStr s => negb (s =? "")%string
  | JArr items => match items with [] => false | _ :: _ => true end
  | JObj fields => match fields with [] => false | _ :: _ => true end
  end.

(** [d.get(k)] *)
Fixpoint dict_get (d : dict) (k : string) : option json :=
  match d with
  | [] => None
  | (k', v) :: rest => if (k' =? k)%string then Some v else dict_get rest k
  end.

(** [d[k]] *)
Definition getitem (d : dict) (k : string) : outcome json :=
  match dict_get d k with
  | Some v => Ok v
  | None => Raise (Exc KeyError ("'" ++ k ++ "'"))
  end.

(** [k in d] *)
Definition dict_mem (d : dict) (k : string) : bool :=
  match dict_get d k with
  | Some _ => true
  | None => false
  end.

(** [d[k] = v]: an existing key keeps its place, a new key goes last. *)
Fixpoint dict_set (d : dict) (k : string) (v : json) : dict :=
  match d with
  | [] => [(k, v)]
  | (k', v') :: rest =>
      if (k' =? k)%string then (k', v) :: rest
      else (k', v') :: dict_set rest k v
  end.

(** [list(d.keys())] *)
Definition dict_keys (d : dict) : list json :=
  map (fun kv => JStr (fst kv)) d.

(** [s in t] for two strings. *)
Fixpoint str_contains (s t : string) : bool :=
  if prefix s t then true
  else match t with
       | EmptyString => false
       | String _ t' => str_contains s t'
       end.

(** [s == v] for a string [s]. *)
Definition str_eq (s : string) (v : json) : bool :=
  match v with
  | JStr s' => (s =? s')%string
  | _ => false
  end.

(** [s in v] *)
Definition contains (s : string) (v : json) : outcome bool :=
  match v with
  | JObj fields => Ok (dict_mem fields s)
  | JArr items => Ok (existsb (str_eq s) items)
  | JStr t => Ok (str_contains s t)
  | _ => Raise (Exc TypeError
                  ("argument of type '" ++ type_name v ++ "' is not iterable"))
  end.

(** [v.get(k, default)] *)
Definition get (v : json) (k : string) (default : json) : outcome json :=
  match v with
  | JObj fields =>
      Ok (match dict_get fields k with Some x => x | None => default end)
  | _ => Raise (Exc AttributeError
                  ("'" ++ type_name v ++ "' object has no attribute 'get'"))
  end.

(** [v.keys()] as a list *)
Definition keys (v : json) : outcome json :=
  match v with
  | JObj fields => Ok (JArr (dict_keys fields))
  | _ => Raise (Exc AttributeError
                  ("'" ++ type_name v ++ "' object has no attribute 'keys'"))
  end.

(** [len(v)] *)
Definition len (v : json) : outcome Z :=
  match v with
  | JStr s => Ok (Z.of_nat (String.length s))
  | JArr items => Ok (Z.of_nat (List.length items))
  | JObj fields => Ok (Z.of_nat (List.length fields))
  | _ => Raise (Exc TypeError
                  ("object of type '" ++ type_name v ++ "' has no len()"))
  end.

(** [v[:k]]. A [dict] refuses a slice as a key: with [TypeError] before
    Python 3.12, with [KeyError] since; both derive from [Exception]. *)
Definition slice_to (k : nat) (v : json) : outcome json :=
  match v with
  | JArr items => Ok (JArr (firstn k items))
  | JStr s => Ok (JStr (substring 0 k s))
  | JObj _ => Raise (Exc TypeError "unhashable type: 'slice'")
  | _ => Raise (Exc TypeError
                  ("'" ++ type_name v ++ "' object is not subscriptable"))
  end.

(** [float(n)] for an [int]: the nearest binary64 number, ties to even;
    an [int] that rounds beyond the largest one raises. *)
Definition float_of_int (n : Z) : outcome spec_float :=
  match binary_normalize 53 1024 n 0 false with
  | S754_infinity _ =>
      Raise (Exc OverflowError "int too large to convert to float")
  | f => Ok f
  end.

(** [int(f)] for a [float]: truncation towards zero. *)
Definition int_of_float (f : spec_float) : outcome Z :=
  match f with
  | S754_zero _ => Ok 0
  | S754_finite s m e =>
      let magnitude :=
        match e with
        | Zneg p => Z.shiftr (Zpos m) (Zpos p)
        | _ => Z.shiftl (Zpos m) e
        end in
      Ok (if s then - magnitude else magnitude)
  | S754_infinity _ =>
      Raise (Exc OverflowError "cannot convert float infinity to integer")
  | S754_nan =>
      Raise (Exc ValueError "cannot convert float NaN to integer")
  end.

(** [str(n)] for an [int] *)
Definition str_int (n : Z) : string :=
  NilZero.string_of_int (Z.to_int n).

End Py.

(** ** [json.dumps] *)

Module Json.

(** The double quote character, as a string. *)
Definition quote : string := String (ascii_of_N 34) "".

Definition hex_digit (n : N) : ascii :=
  ascii_of_N (if (n <? 10)%N then 48 + n else 87 + n)%N.

(** The [\u00xx] escape of a character. *)
Definition escape_u (c : ascii) : string :=
  let n := N_of_ascii c in
  "\u00" ++ String (hex_digit (n / 16)) (String (hex_digit (n mod 16)) "").

(** One character of a string under [ensure_ascii]: a printable ASCII
    character other than the quote and the backslash stands for itself. *)
Definition escape_char (c : ascii) : string :=
  let n := N_of_ascii c in
  if (n =? 34)%N then "\" ++ quote
  else if (n =? 92)%N then "\\"
  else if (n =? 8)%N then "\b"
  else if (n =? 12)%N then "\f"
  else if (n =? 10)%N then "\n"
  else if (n =? 13)%N then "\r"
  else if (n =? 9)%N then "\t"
  else if ((32 <=? n) && (n <=? 126))%N then String c ""
  else escape_u c.

Fixpoint escape (s : string) : string :=
  match s with
  | EmptyString => ""
  | String c rest => escape_char c ++ escape rest
  end.

Definition encode_str (s : string) : string :=
  quote ++ escape s ++ quote.

Fixpoint spaces (n : nat) : string :=
  match n with
  | O => ""
  | S n' => String " " (spaces n')
  end.

Definition newline : string := String (ascii_of_N 10) "".

Fixpoint join (sep : string) (parts : list string) : string :=
  match parts with
  | [] => ""
  | [p] => p
  | p :: rest => p ++ sep ++ join sep rest
  end.

Section Dumps.

(** How a float is written ([float.__repr__], and [NaN] and [Infinity] for
    those) belongs to the interpreter. *)
Variable float_repr : spec_float -> string.

(** The indentation step. *)
Variable indent : nat.

Definition newline_indent (level : nat) : string :=
  newline ++ spaces (indent * level).

Fixpoint encode (level : nat) (v : json) : string :=
  match v with
  | JNull => "null"
  | JBool true => "true"
  | JBool false => "false"
  | JInt n => Py.str_int n
  | JFloat f => float_repr f
  | JStr s => encode_str s
  | JArr [] => "[]"
  | JArr items =>
      "[" ++ newline_indent (S level)
          ++ join ("," ++ newline_indent (S level))
                  (map (encode (S level)) items)
          ++ newline_indent level ++ "]"
  | JObj [] => "{}"
  | JObj fields =>
      "{" ++ newline_indent (S level)
          ++ join ("," ++ newline_indent (S level))
                  (map (fun kv => encode_str (fst kv) ++ ": "
                                    ++ encode (S level) (snd kv)) fields)
          ++ newline_indent level ++ "}"
  end.

(** [json.dumps(v, indent=indent)] *)
Definition dumps (v : json) : string := encode 0 v.

End Dumps.

End Json.

(** ** Effects: exceptions and the log of requests sent *)

(** A computation runs from the requests sent so far, returns or raises, and
    leaves the requests sent by then. *)
Definition IO (A : Type) : Type := list dict -> outcome A * list dict.

Definition ret {A} (a : A) : IO A := fun sent => (Ok a, sent).

Definition raise {A} (e : exn) : IO A := fun sent => (Raise e, sent).

Definition bind {A B} (c : IO A) (k : A -> IO B) : IO B :=
  fun sent =>
    match c sent with
    | (Ok a, sent') => k a sent'
    | (Raise e, sent') => (Raise e, sent')
    end.

(** A pure operation that may raise. *)
Definition lift {A} (o : outcome A) : IO A := fun sent => (o, sent).

(** [try: body / except Exception as e: handler e] *)
Definition try_except {A} (body : IO A) (handler : exn -> IO A) : IO A :=
  fun sent =>
    match body sent with
    | (Ok a, sent') => (Ok a, sent')
    | (Raise e, sent') => handler e sent'
    end.

Notation "x <- c ;; k" := (bind c (fun x => k))
  (at level 61, c at next level, right associativity).
Notation "c ;;; k" := (bind c (fun _ => k))
  (at level 61, right associativity).

(** A call made with nothing sent yet: what it returns or raises. *)
Definition result {A} (c : IO A) : outcome A := fst (c []).

(** The requests that reached the network during the call, in order. *)
Definition requests {A} (c : IO A) : list dict := snd (c []).

(** A computation that sends nothing. *)
Definition quiet {A} (c : IO A) : Prop := forall sent, snd (c sent) = sent.

(** ** The server *)

Section Server.

(** How [json.dumps] writes a float, and [repr] of a value that is not a
    string, belong to the interpreter. *)
Variable float_repr : spec_float -> string.
Variable repr : json -> string.

(** [os.environ.get('SERPAPI_API_KEY')] *)
Variable api_key : option string.

(** The network: what [client.get] gives for the query it is called with,
    a response of any status or an exception (connection failure, timeout). *)
Variable network : dict -> outcome response.

(** [str(v)], as an f-string formats a value: a string is itself. *)
Definition str (v : json) : string :=
  match v with
  | JStr s => s
  | _ => repr v
  end.

(** [json.dumps(v, indent=2)] *)
Definition json_dumps (v : json) : string := Json.dumps float_repr 2 v.

(** An [Optional[str]] as a value. *)
Definition of_optional (o : option string) : json :=
  match o with
  | Some s => JStr s
  | None => JNull
  end.

(** [await client.get(SERPAPI_BASE_URL, params=params, timeout=30.0)] *)
Definition client_get (params : dict) : IO response :=
  fun sent => (network params, (sent ++ [params])%list).

Definition is_success (r : response) : bool :=
  (200 <=? status_code r) && (status_code r <=? 299).

(** [response.raise_for_status()] *)
Definition raise_for_status (r : response) : IO unit :=
  if is_success r then ret tt else raise (HTTPStatusError (reason r) r).

(** [response.json()] *)
Definition response_json (r : response) : IO json :=
  match content r with
  | Parsed doc => ret doc
  | NotJson msg => raise (Exc JSONDecodeError msg)
  end.

Definition missing_key_msg : string :=
  "SERPAPI_API_KEY environment variable is not set. Please add it to your .env file or configuration.".

Definition error_doc (msg : string) : json := JObj [("error", JStr msg)].

Definition make_serpapi_request (params : dict) : IO json :=
  let params := Py.dict_set params "api_key" (of_optional api_key) in
  key <- lift (Py.getitem params "api_key") ;;
  if negb (Py.truthy key) then
    ret (error_doc missing_key_msg)
  else
    try_except
      (response <- client_get params ;;
       raise_for_status response ;;;
       response_json response)
      (fun e =>
         match e with
         | HTTPStatusError _ resp =>
             try_except
               (error_data <- response_json resp ;;
                detail <- lift (Py.get error_data "error" (JStr (str_exn e))) ;;
                ret (error_doc ("SerpAPI error: " ++ str detail)))
               (fun _ => ret (error_doc ("HTTP error occurred: " ++ str_exn e)))
         | _ => ret (error_doc ("Request failed: " ++ str_exn e))
         end).

(** The query of [search_flights], as built before the request. *)
Definition flight_params (departure_airport arrival_airport outbound_date : string)
    (return_date : option string) (adults children : Z) : dict :=
  let params :=
    [ ("engine", JStr "google_flights");
      ("hl", JStr "en");
      ("gl", JStr "us");
      ("departure_id", JStr departure_airport);
      ("arrival_id", JStr arrival_airport);
      ("outbound_date", JStr outbound_date);
      ("currency", JStr "USD");
      ("adults", JInt adults);
      ("children", JInt children) ] in
  if Py.truthy (of_optional return_date) then
    let params := Py.dict_set params "type" (JStr "1") in
    Py.dict_set params "return_date" (of_optional return_date)
  else
    Py.dict_set params "type" (JStr "2").

(** [search_flights], lines 129 to 154: the document that came back is
    interpreted. *)
Definition interpret_flights (data : json) : IO string :=
  if negb (Py.truthy data) then
    ret (json_dumps (error_doc "Unable to fetch flight data"))
  else
    has_error <- lift (Py.contains "error" data) ;;
    if has_error then
      ret (json_dumps data)
    else
      best_flights <- lift (Py.get data "best_flights" (JArr [])) ;;
      if negb (Py.truthy best_flights) then
        other_flights <- lift (Py.get data "other_flights" (JArr [])) ;;
        if Py.truthy other_flights then
          (* the log line formats [len(other_flights)] *)
          lift (Py.len other_flights) ;;;
          shown <- lift (Py.slice_to 10 other_flights) ;;
          ret (json_dumps
                 (JObj [ ("message",
                          JStr "No best flights found, showing other options");
                         ("flights", shown) ]))
        else
          available_keys <- lift (Py.keys data) ;;
          ret (json_dumps
                 (JObj [ ("message", JStr "No flights found");
                         ("available_keys", available_keys) ]))
      else
        (* the log line formats [len(best_flights)] *)
        lift (Py.len best_flights) ;;;
        ret (json_dumps best_flights).

(** [except Exception as e] of [search_flights] *)
Definition flights_failed (e : exn) : IO string :=
  ret (json_dumps (error_doc ("Flight search failed: " ++ str_exn e))).

Definition search_flights (departure_airport arrival_airport outbound_date : string)
    (return_date : option string) (adults children : Z) : IO string :=
  let params :=
    flight_params departure_airport arrival_airport outbound_date
                  return_date adults children in
  try_except
    (data <- make_serpapi_request params ;;
     interpret_flights data)
    flights_failed.

(** [int(float(n)) if n else default] *)
Definition to_int (n default : Z) : outcome Z :=
  if Py.truthy (JInt n) then
    match Py.float_of_int n with
    | Ok f => Py.int_of_float f
    | Raise e => Raise e
    end
  else
    Ok default.

(** The query of [search_hotels], from the counts as coerced. *)
Definition hotel_params (location check_in_date check_out_date : string)
    (adults children rooms : Z) (hotel_class : option string) (sort_by : Z)
    : dict :=
  let params :=
    [ ("engine", JStr "google_hotels");
      ("hl", JStr "en");
      ("gl", JStr "us");
      ("q", JStr location);
      ("check_in_date", JStr check_in_date);
      ("check_out_date", JStr check_out_date);
      ("currency", JStr "USD");
      ("adults", JInt adults);
      ("children", JInt children);
      ("rooms", JInt rooms);
      ("sort_by", JInt sort_by) ] in
  if Py.truthy (of_optional hotel_class) then
    Py.dict_set params "hotel_class" (of_optional hotel_class)
  else
    params.

(** [search_hotels], lines 217 to 235: the document that came back is
    interpreted. *)
Definition interpret_hotels (data : json) : IO string :=
  if negb (Py.truthy data) then
    ret (json_dumps (error_doc "Unable to fetch hotel data"))
  else
    has_error <- lift (Py.contains "error" data) ;;
    if has_error then
      ret (json_dumps data)
    else
      properties <- lift (Py.get data "properties" (JArr [])) ;;
      if negb (Py.truthy properties) then
        available_keys <- lift (Py.keys data) ;;
        ret (json_dumps
               (JObj [ ("message", JStr "No hotels found");
                       ("available_keys", available_keys) ]))
      else
        (* the log line formats [len(properties)] *)
        lift (Py.len properties) ;;;
        shown <- lift (Py.slice_to 5 properties) ;;
        ret (json_dumps shown).

(** [except Exception as e] of [search_hotels] *)
Definition hotels_failed (e : exn) : IO string :=
  ret (json_dumps (error_doc ("Hotel search failed: " ++ str_exn e))).

Definition search_hotels (location check_in_date check_out_date : string)
    (adults children rooms : Z) (hotel_class : option string) (sort_by : Z)
    : IO string :=
  (* the four coercions stand before the [try] *)
  adults <- lift (to_int adults 1) ;;
  children <- lift (to_int children 0) ;;
  rooms <- lift (to_int rooms 1) ;;
  sort_by <- lift (to_int sort_by 8) ;;
  let params :=
    hotel_params location check_in_date check_out_date
                 adults children rooms hotel_class sort_by in
  try_except
    (data <- make_serpapi_request params ;;
     interpret_hotels data)
    hotels_failed.

(** A tool invocation: [@mcp.tool()] registers the two searches. *)
Inductive invocation :=
| SearchFlights (departure_airport arrival_airport outbound_date : string)
    (return_date : option string) (adults children : Z)
| SearchHotels (location check_in_date check_out_date : string)
    (adults children rooms : Z) (hotel_class : option string) (sort_by : Z).

Definition call_tool (i : invocation) : IO string :=
  match i with
  | SearchFlights departure_airport arrival_airport outbound_date
                  return_date adults children =>
      search_flights departure_airport arrival_airport outbound_date
                     return_date adults children
  | SearchHotels location check_in_date check_out_date
                 adults children rooms hotel_class sort_by =>
      search_hotels location check_in_date check_out_date
                    adults children rooms hotel_class sort_by
  end.

(** The query as it leaves: the caller's parameters and the credential. *)
Definition with_key (params : dict) : dict :=
  Py.dict_set params "api_key" (of_optional api_key).

(** The error document for a response that [raise_for_status] refuses. *)
Definition status_error_doc (r : response) : json :=
  match content r with
  | Parsed (JObj fields) =>
      match Py.dict_get fields "error" with
      | Some detail => error_doc ("SerpAPI error: " ++ str detail)
      | None => error_doc ("SerpAPI error: " ++ reason r)
      end
  | _ => error_doc ("HTTP error occurred: " ++ reason r)
  end.

(** The query that [search_flights] sends. *)
Definition flight_request (departure_airport arrival_airport outbound_date : string)
    (return_date : option string) (adults children : Z) : dict :=
  with_key
    (flight_params departure_airport arrival_airport outbound_date
                   return_date adults children).

(** The query that [search_hotels] sends, from the counts as coerced. *)
Definition hotel_request (location check_in_date check_out_date : string)
    (adults children rooms : Z) (hotel_class : option string) (sort_by : Z)
    : dict :=
  with_key
    (hotel_params location check_in_date check_out_date
                  adults children rooms hotel_class sort_by).

End Server.

(** ** Sample runs *)

(** A stand-in for [float.__repr__] and [repr] in the sample runs, whose
    documents hold no floats. *)
Definition sample_float_repr (f : spec_float) : string := "0.0".

Definition sample_repr (v : json) : string := "None".

(** A network that answers every query with [r]. *)
Definition answering (r : response) : dict -> outcome response :=
  fun _ => Ok r.

(** A 200 response with the body [doc]. *)
Definition ok_response (doc : json) : response :=
  Response 200 "" (Parsed doc).

Definition flight (n : Z) : json :=
  JObj [("price", JInt n)].

Definition fifteen_flights : list json :=
  map flight [1; 2; 3; 4; 5; 6; 7; 8; 9; 10; 11; 12; 13; 14; 15].

Definition hotel (n : Z) : json :=
  JObj [("name", JStr "Hotel"); ("rank", JInt n)].

Definition eight_hotels : list json :=
  map hotel [1; 2; 3; 4; 5; 6; 7; 8].

Definition sample_flights : invocation :=
  SearchFlights "JFK" "LHR" "2025-12-15" None 1 0.

Definition sample_hotels : invocation :=
  SearchHotels "Paris" "2025-12-15" "2025-12-20" 2 0 1 None 8.

Arguments error_doc msg /.

(** ** Dictionaries *)

Lemma dict_get_set_same (d : dict) (k : string) (v : json) :
  Py.dict_get (Py.dict_set d k v) k = Some v.
Proof.
  induction d as [|[k' v'] rest IH]; simpl.
  - now rewrite String.eqb_refl.
  - destruct (k' =? k)%string eqn:E; simpl; rewrite E; auto.
Qed.


Lemma getitem_set_same (d : dict) (k : string) (v : json) :
  Py.getitem (Py.dict_set d k v) k = Ok v.
Proof. unfold Py.getitem. now rewrite dict_get_set_same. Qed.

(** ** Computations that send nothing *)


Lemma quiet_ret {A} (a : A) : quiet (ret a).
Proof. intro; reflexivity. Qed.

Lemma quiet_raise {A} (e : exn) : quiet (@raise A e).
Proof. intro; reflexivity. Qed.

Lemma quiet_lift {A} (o : outcome A) : quiet (lift o).
Proof. intro; reflexivity. Qed.

Lemma quiet_bind {A B} (c : IO A) (k : A -> IO B) :
  quiet c -> (forall a, quiet (k a)) -> quiet (bind c k).
Proof.
  intros Hc Hk sent. unfold bind. specialize (Hc sent).
  destruct (c sent) as [[a|e] sent']; simpl in *; subst; auto. apply Hk.
Qed.

Lemma quiet_try_except {A} (c : IO A) (h : exn -> IO A) :
  quiet c -> (forall e, quiet (h e)) -> quiet (try_except c h).
Proof.
  intros Hc Hh sent. unfold try_except. specialize (Hc sent).
  destruct (c sent) as [[a|e] sent']; simpl in *; subst; auto. apply Hh.
Qed.

Ltac solve_quiet :=
  repeat first
    [ apply quiet_ret | apply quiet_raise | apply quiet_lift
    | apply quiet_bind; [ | intros ? ]
    | apply quiet_try_except; [ | intros ? ]
    | match goal with
      | |- quiet (if ?b then _ else _) => destruct b
      | |- quiet (match ?x with _ => _ end) => destruct x
      end ].

(** What follows a call, and what handles its exception, send nothing: the
    requests are those of the call. *)
Lemma sent_try_bind {A B} (c : IO A) (k : A -> IO B) (h : exn -> IO B) sent :
  (forall a, quiet (k a)) -> (forall e, quiet (h e)) ->
  snd (try_except (bind c k) h sent) = snd (c sent).
Proof.
  intros Hk Hh. unfold try_except, bind.
  destruct (c sent) as [[a|e] sent']; simpl.
  - specialize (Hk a sent'). destruct (k a sent') as [[b|e] sent'']; simpl in *.
    + assumption.
    + subst. apply Hh.
  - apply Hh.
Qed.

(** ** Coercion of the counts: [int(float(n))] *)

Lemma digits2_pos_bounds (m : positive) :
  2 ^ (Zpos (digits2_pos m) - 1) <= Zpos m < 2 ^ Zpos (digits2_pos m).
Proof.
  induction m as [m IH|m IH|]; cbn [digits2_pos].
  - rewrite Pos2Z.inj_succ. change (Zpos m~1) with (2 * Zpos m + 1).
    replace (Z.succ (Zpos (digits2_pos m)) - 1) with (Z.succ (Zpos (digits2_pos m) - 1)) by lia.
    rewrite !Z.pow_succ_r by lia.
    generalize dependent (2 ^ (Zpos (digits2_pos m) - 1)).
    generalize (2 ^ Zpos (digits2_pos m)). lia.
  - rewrite Pos2Z.inj_succ. change (Zpos m~0) with (2 * Zpos m).
    replace (Z.succ (Zpos (digits2_pos m)) - 1) with (Z.succ (Zpos (digits2_pos m) - 1)) by lia.
    rewrite !Z.pow_succ_r by lia.
    generalize dependent (2 ^ (Zpos (digits2_pos m) - 1)).
    generalize (2 ^ Zpos (digits2_pos m)). lia.
  - simpl. lia.
Qed.

Lemma digits2_pos_small (m : positive) :
  Zpos m < 2 ^ 53 -> Zpos (digits2_pos m) <= 53.
Proof.
  intros Hm. pose proof (digits2_pos_bounds m) as [Hlo _].
  destruct (Z.le_gt_cases (Zpos (digits2_pos m)) 53) as [|Hgt]; [assumption|].
  assert (2 ^ 53 <= 2 ^ (Zpos (digits2_pos m) - 1)) by (apply Z.pow_le_mono_r; lia).
  lia.
Qed.

Lemma digits2_pos_iter_xO (m k : positive) :
  digits2_pos (Pos.iter xO m k) = (digits2_pos m + k)%positive.
Proof.
  induction k as [|k IH] using Pos.peano_ind.
  - simpl. lia.
  - rewrite Pos.iter_succ. cbn [digits2_pos]. rewrite IH. lia.
Qed.

Lemma iter_xO_value (m k : positive) :
  Zpos (Pos.iter xO m k) = Zpos m * 2 ^ Zpos k.
Proof.
  induction k as [|k IH] using Pos.peano_ind.
  - simpl. lia.
  - rewrite Pos.iter_succ. change (Zpos (Pos.iter xO m k)~0) with (2 * Zpos (Pos.iter xO m k)).
    rewrite IH, Pos2Z.inj_succ, Z.pow_succ_r by lia. lia.
Qed.

Lemma binary_round_small (s : bool) (m : positive) :
  Zpos m < 2 ^ 53 ->
  binary_round 53 1024 s m 0 =
    match Zpos (digits2_pos m) - 53 with
    | Zneg k => S754_finite s (Pos.iter xO m k) (Zneg k)
    | _ => S754_finite s m 0
    end.
Proof.
  intros Hm. pose proof (digits2_pos_small m Hm) as Hd.
  unfold binary_round, shl_align, fexp, emin.
  rewrite Z.add_0_r, Z.sub_0_r.
  rewrite Z.max_l by lia.
  destruct (Zpos (digits2_pos m) - 53) as [|p|k] eqn:Hk; [|lia|].
  - unfold binary_round_aux, shr_fexp, fexp, emin, Zdigits2.
    rewrite Z.add_0_r, Z.sub_0_r. rewrite Z.max_l by lia. rewrite Hk.
    cbn [shr shr_record_of_loc shr_m loc_of_shr_record round_nearest_even].
    unfold Zdigits2. rewrite Z.add_0_r, Z.sub_0_r, Z.max_l by lia. rewrite Hk.
    cbn [shr shr_m]. reflexivity.
  - unfold binary_round_aux, shr_fexp, fexp, emin, Zdigits2.
    rewrite digits2_pos_iter_xO, Pos2Z.inj_add.
    replace (Zpos (digits2_pos m) + Zpos k + Zneg k - 53) with (Zneg k) by lia.
    rewrite Z.max_l by lia. rewrite Z.sub_diag.
    cbn [shr shr_record_of_loc shr_m loc_of_shr_record round_nearest_even].
    unfold Zdigits2. rewrite digits2_pos_iter_xO, Pos2Z.inj_add.
    replace (Zpos (digits2_pos m) + Zpos k + Zneg k - 53) with (Zneg k) by lia.
    rewrite Z.max_l by lia. rewrite Z.sub_diag.
    cbn [shr shr_m].
    destruct (Z.leb_spec (Zneg k) (1024 - 53)); [reflexivity|lia].
Qed.

(** Below [2 ^ 53] every [int] is a binary64 number: [int(float(n))] is [n]. *)
Lemma int_of_float_of_int_small (s : bool) (m : positive) :
  Zpos m < 2 ^ 53 ->
  Py.int_of_float (binary_round 53 1024 s m 0) =
    Ok (if s then Zneg m else Zpos m).
Proof.
  intros Hm. rewrite binary_round_small by assumption.
  destruct (Zpos (digits2_pos m) - 53) as [|p|k]; cbn [Py.int_of_float].
  - now destruct s.
  - now destruct s.
  - rewrite Z.shiftr_div_pow2, iter_xO_value, Z.div_mul by lia.
    now destruct s.
Qed.

(** Beyond [2 ^ 53] the coercion rounds, and from [2 ^ 1024 - 2 ^ 970] on
    it raises. *)
Example to_int_rounds : to_int (2 ^ 53 + 1) 8 = Ok (2 ^ 53).
Proof. vm_compute. reflexivity. Qed.

Example to_int_largest :
  to_int (2 ^ 1024 - 2 ^ 970 - 1) 1 = Ok (2 ^ 1024 - 2 ^ 971).
Proof. vm_compute. reflexivity. Qed.

Example to_int_overflows :
  to_int (2 ^ 1024 - 2 ^ 970) 1 =
    Raise (Exc OverflowError "int too large to convert to float") /\
  to_int (- 2 ^ 1024) 1 =
    Raise (Exc OverflowError "int too large to convert to float").
Proof. split; vm_compute; reflexivity. Qed.

Lemma to_int_zero (default : Z) : to_int 0 default = Ok default.
Proof. reflexivity. Qed.

Lemma to_int_exact (n default : Z) :
  n <> 0 -> - 2 ^ 53 <= n <= 2 ^ 53 -> to_int n default = Ok n.
Proof.
  intros Hn Hrange. unfold to_int. cbn [Py.truthy].
  destruct (Z.eqb_spec n 0) as [|_]; [contradiction|]. cbn [negb].
  destruct n as [|m|m]; [contradiction| |].
  - destruct (Z.eq_dec (Zpos m) (2 ^ 53)) as [E|E].
    + injection E as ->. vm_compute. reflexivity.
    + unfold Py.float_of_int. cbn [binary_normalize].
      pose proof (int_of_float_of_int_small false m ltac:(lia)) as H.
      destruct (binary_round 53 1024 false m 0); try exact H; discriminate H.
  - destruct (Z.eq_dec (Zpos m) (2 ^ 53)) as [E|E].
    + injection E as ->. vm_compute. reflexivity.
    + unfold Py.float_of_int. cbn [binary_normalize].
      pose proof (int_of_float_of_int_small true m ltac:(lia)) as H.
      destruct (binary_round 53 1024 true m 0); try exact H; discriminate H.
Qed.

(** ** The request executor *)

Section Executor.

Variable repr : json -> string.
Variable api_key : option string.
Variable network : dict -> outcome response.

Local Abbreviation execute := (make_serpapi_request repr api_key network).


(** Without a credential nothing is sent. *)
Lemma execute_unconfigured (params sent : list _) :
  Py.truthy (of_optional api_key) = false ->
  execute params sent = (Ok (error_doc missing_key_msg), sent).
Proof.
  intros Hkey. unfold make_serpapi_request, bind, lift.
  rewrite getitem_set_same, Hkey. reflexivity.
Qed.

(** A 2xx response with a JSON body is returned as parsed. *)
Lemma execute_success (params sent : list _) (r : response) (doc : json) :
  Py.truthy (of_optional api_key) = true ->
  network (with_key api_key params) = Ok r ->
  is_success r = true ->
  content r = Parsed doc ->
  execute params sent = (Ok doc, (sent ++ [with_key api_key params])%list).
Proof.
  intros Hkey Hnet Hok Hbody.
  unfold make_serpapi_request, bind, lift, try_except, client_get.
  rewrite getitem_set_same, Hkey. fold (with_key api_key params). simpl.
  rewrite Hnet. unfold raise_for_status. rewrite Hok. simpl.
  unfold response_json. rewrite Hbody. reflexivity.
Qed.


Lemma execute_status_error (params sent : list _) (r : response) :
  Py.truthy (of_optional api_key) = true ->
  network (with_key api_key params) = Ok r ->
  is_success r = false ->
  execute params sent = (Ok (status_error_doc repr r), (sent ++ [with_key api_key params])%list).
Proof.
  intros Hkey Hnet Hok.
  unfold make_serpapi_request, bind, lift, try_except, client_get.
  rewrite getitem_set_same, Hkey. fold (with_key api_key params). simpl.
  rewrite Hnet. unfold raise_for_status. rewrite Hok. simpl.
  unfold response_json, status_error_doc.
  destruct (content r) as [doc|msg]; simpl; [|reflexivity].
  destruct doc; simpl; try reflexivity.
  destruct (Py.dict_get fields "error"); reflexivity.
Qed.

(** The executor never raises, and sends one request or none. *)
Lemma execute_total (params sent : list _) :
  exists doc,
    execute params sent =
      (Ok doc,
       if Py.truthy (of_optional api_key)
       then (sent ++ [with_key api_key params])%list else sent).
Proof.
  destruct (Py.truthy (of_optional api_key)) eqn:Hkey.
  - destruct (network (with_key api_key params)) as [r|e] eqn:Hnet.
    + destruct (is_success r) eqn:Hok.
      * destruct (content r) as [doc|msg] eqn:Hbody.
        -- exists doc. now apply execute_success with r.
        -- eexists.
           unfold make_serpapi_request, bind, lift, try_except, client_get.
           rewrite getitem_set_same, Hkey. fold (with_key api_key params). simpl.
           rewrite Hnet. unfold raise_for_status. rewrite Hok. simpl.
           unfold response_json. rewrite Hbody. reflexivity.
      * exists (status_error_doc repr r). now apply execute_status_error.
    + unfold make_serpapi_request, bind, lift, try_except, client_get.
      rewrite getitem_set_same, Hkey. fold (with_key api_key params). simpl.
      rewrite Hnet. simpl. destruct e as [msg resp|cls msg].
      * unfold response_json.
        destruct (content resp) as [doc|msg']; simpl; [|eexists; reflexivity].
        destruct (Py.get doc "error" (JStr msg)); eexists; reflexivity.
      * eexists; reflexivity.
  - eexists. now apply execute_unconfigured.
Qed.

End Executor.

(** ** The two tools: what they send *)

Lemma try_bind_ok {A B} (c : IO A) (k : A -> IO B) (h : exn -> IO B)
    (sent sent' : list dict) (a : A) :
  c sent = (Ok a, sent') ->
  try_except (bind c k) h sent = try_except (k a) h sent'.
Proof. intros Hc. unfold try_except, bind. now rewrite Hc. Qed.

Lemma bind_lift {A B} (o : outcome A) (k : A -> IO B) (sent : list dict) :
  bind (lift o) k sent =
    match o with
    | Ok a => k a sent
    | Raise e => (Raise e, sent)
    end.
Proof. unfold bind, lift. now destruct o. Qed.

Section Tools.

Variable float_repr : spec_float -> string.
Variable repr : json -> string.
Variable api_key : option string.
Variable network : dict -> outcome response.

Local Abbreviation execute := (make_serpapi_request repr api_key network).
Local Abbreviation flights := (search_flights float_repr repr api_key network).
Local Abbreviation hotels := (search_hotels float_repr repr api_key network).
Local Abbreviation tool := (call_tool float_repr repr api_key network).
Local Abbreviation dumps := (json_dumps float_repr).

Lemma quiet_interpret_flights (data : json) :
  quiet (interpret_flights float_repr data).
Proof. unfold interpret_flights. solve_quiet. Qed.

Lemma quiet_interpret_hotels (data : json) :
  quiet (interpret_hotels float_repr data).
Proof. unfold interpret_hotels. solve_quiet. Qed.

Lemma flights_requests dep arr out rdate adults children :
  requests (flights dep arr out rdate adults children) =
    if Py.truthy (of_optional api_key)
    then [flight_request api_key dep arr out rdate adults children] else [].
Proof.
  unfold requests, search_flights. rewrite sent_try_bind.
  - destruct (execute_total repr api_key network
                (flight_params dep arr out rdate adults children) [])
      as [doc Hdoc].
    rewrite Hdoc. reflexivity.
  - apply quiet_interpret_flights.
  - intros e. apply quiet_ret.
Qed.

Lemma hotels_requests loc cin cout adults children rooms cls sort_by :
  requests (hotels loc cin cout adults children rooms cls sort_by) =
    match to_int adults 1, to_int children 0, to_int rooms 1, to_int sort_by 8 with
    | Ok a, Ok c, Ok r, Ok s =>
        if Py.truthy (of_optional api_key)
        then [hotel_request api_key loc cin cout a c r cls s] else []
    | _, _, _, _ => []
    end.
Proof.
  unfold requests, search_hotels. rewrite bind_lift.
  destruct (to_int adults 1) as [a|]; [|reflexivity].
  rewrite bind_lift.
  destruct (to_int children 0) as [c|]; [|reflexivity].
  rewrite bind_lift.
  destruct (to_int rooms 1) as [r|]; [|reflexivity].
  rewrite bind_lift.
  destruct (to_int sort_by 8) as [s|]; [|reflexivity].
  rewrite sent_try_bind.
  - destruct (execute_total repr api_key network
                (hotel_params loc cin cout a c r cls s) [])
      as [doc Hdoc].
    rewrite Hdoc. reflexivity.
  - apply quiet_interpret_hotels.
  - intros e. apply quiet_ret.
Qed.

(** *** After the request *)

(** A flights call that sent [q]: the credential is set, [q] is the query
    with the credential, and the call goes on from what the executor returns. *)
Lemma flights_after dep arr out rdate adults children q :
  requests (flights dep arr out rdate adults children) = [q] ->
  Py.truthy (of_optional api_key) = true /\
  q = flight_request api_key dep arr out rdate adults children /\
  forall data sent',
    execute (flight_params dep arr out rdate adults children) [] = (Ok data, sent') ->
    result (flights dep arr out rdate adults children) =
      fst (try_except (interpret_flights float_repr data)
                      (flights_failed float_repr) sent').
Proof.
  rewrite flights_requests.
  destruct (Py.truthy (of_optional api_key)); [|discriminate].
  intros H. injection H as <-. repeat split.
  intros data sent' Hrun. unfold result, search_flights.
  now rewrite (try_bind_ok _ _ _ _ _ _ Hrun).
Qed.

(** The same for a hotels call: the four counts were coerced. *)
Lemma hotels_after loc cin cout adults children rooms cls sort_by q :
  requests (hotels loc cin cout adults children rooms cls sort_by) = [q] ->
  Py.truthy (of_optional api_key) = true /\
  exists a c r s,
    to_int adults 1 = Ok a /\ to_int children 0 = Ok c /\
    to_int rooms 1 = Ok r /\ to_int sort_by 8 = Ok s /\
    q = hotel_request api_key loc cin cout a c r cls s /\
    forall data sent',
      execute (hotel_params loc cin cout a c r cls s) [] = (Ok data, sent') ->
      result (hotels loc cin cout adults children rooms cls sort_by) =
        fst (try_except (interpret_hotels float_repr data)
                        (hotels_failed float_repr) sent').
Proof.
  rewrite hotels_requests. unfold result, search_hotels.
  destruct (to_int adults 1) as [a|]; [|discriminate].
  destruct (to_int children 0) as [c|]; [|discriminate].
  destruct (to_int rooms 1) as [r|]; [|discriminate].
  destruct (to_int sort_by 8) as [s|]; [|discriminate].
  destruct (Py.truthy (of_optional api_key)); [|discriminate].
  intros H. injection H as <-. split; [reflexivity|].
  exists a, c, r, s. repeat split.
  intros data sent' Hrun. rewrite !bind_lift.
  now rewrite (try_bind_ok _ _ _ _ _ _ Hrun).
Qed.

Ltac shape :=
  unfold interpret_flights, interpret_hotels, try_except, bind, lift, ret;
  cbn [Py.truthy Py.contains Py.get Py.len Py.keys Py.slice_to negb fst snd].

(** *** The error key comes first *)

(** C10. In either tool, an upstream document that has the key [error],
    whatever its value and whatever else the document holds, is returned
    serialized as it came. *)
Theorem error_key_passes_document_through
    (i : invocation) (q : dict) (r : response) (fields : dict) :
  requests (tool i) = [q] ->
  network q = Ok r ->
  is_success r = true ->
  content r = Parsed (JObj fields) ->
  Py.dict_mem fields "error" = true ->
  result (tool i) = Ok (dumps (JObj fields)).
Proof.
  intros Hsent Hnet Hok Hbody Herr.
  assert (Hfields : Py.truthy (JObj fields) = true)
    by (destruct fields; [discriminate|reflexivity]).
  destruct i; cbn [call_tool] in *.
  - apply flights_after in Hsent as (Hkey & -> & Hrun).
    erewrite Hrun by (eapply execute_success; eassumption).
    shape. cbn [Py.truthy] in Hfields. rewrite Hfields, Herr. reflexivity.
  - apply hotels_after in Hsent as (Hkey & a & c & n & s & _ & _ & _ & _ & -> & Hrun).
    erewrite Hrun by (eapply execute_success; eassumption).
    shape. cbn [Py.truthy] in Hfields. rewrite Hfields, Herr. reflexivity.
Qed.

(** *** A falsy document *)

(** C9. In either tool, a 2xx response whose body parses to a falsy document
    (the empty object, the empty array, null, zero, ...) gives the error
    result [Unable to fetch ... data], and not the diagnostic that reports
    that nothing was found. *)
Theorem falsy_document_is_fetch_error
    (i : invocation) (q : dict) (r : response) (doc : json) :
  requests (tool i) = [q] ->
  network q = Ok r ->
  is_success r = true ->
  content r = Parsed doc ->
  Py.truthy doc = false ->
  match i with
  | SearchFlights _ _ _ _ _ _ =>
      result (tool i) = Ok (dumps (error_doc "Unable to fetch flight data")) /\
      result (tool i) <>
        Ok (dumps (JObj [("message", JStr "No flights found");
                         ("available_keys", JArr [])]))
  | SearchHotels _ _ _ _ _ _ _ _ =>
      result (tool i) = Ok (dumps (error_doc "Unable to fetch hotel data")) /\
      result (tool i) <>
        Ok (dumps (JObj [("message", JStr "No hotels found");
                         ("available_keys", JArr [])]))
  end.
Proof.
  intros Hsent Hnet Hok Hbody Hfalsy.
  destruct i; cbn [call_tool] in *.
  - apply flights_after in Hsent as (Hkey & -> & Hrun).
    erewrite Hrun by (eapply execute_success; eassumption).
    shape. rewrite Hfalsy. split; [reflexivity|].
    vm_compute. discriminate.
  - apply hotels_after in Hsent as (Hkey & a & c & n & s & _ & _ & _ & _ & -> & Hrun).
    erewrite Hrun by (eapply execute_success; eassumption).
    shape. rewrite Hfalsy. split; [reflexivity|].
    vm_compute. discriminate.
Qed.

(** *** Flights *)

(** C4. An upstream document without the key [error] whose [best_flights] is
    a non-empty array: [search_flights] returns that array, whole and in its
    order. *)
Theorem best_flights_returned_in_full
    dep arr out rdate adults children (q : dict) (r : response)
    (fields : dict) (best : list json) :
  requests (flights dep arr out rdate adults children) = [q] ->
  network q = Ok r ->
  is_success r = true ->
  content r = Parsed (JObj fields) ->
  Py.dict_mem fields "error" = false ->
  Py.dict_get fields "best_flights" = Some (JArr best) ->
  best <> [] ->
  result (flights dep arr out rdate adults children) = Ok (dumps (JArr best)).
Proof.
  intros Hsent Hnet Hok Hbody Herr Hbest Hne.
  apply flights_after in Hsent as (Hkey & -> & Hrun).
  erewrite Hrun by (eapply execute_success; eassumption).
  destruct fields as [|kv fields']; [discriminate|].
  shape. rewrite Herr, Hbest. destruct best; [congruence|]. reflexivity.
Qed.

(** C5. An upstream document without the key [error] whose [best_flights] is
    absent or empty and whose [other_flights] has more than 10 entries:
    [search_flights] returns the message and the first 10 entries. *)
Theorem other_flights_first_ten
    dep arr out rdate adults children (q : dict) (r : response)
    (fields : dict) (others : list json) :
  requests (flights dep arr out rdate adults children) = [q] ->
  network q = Ok r ->
  is_success r = true ->
  content r = Parsed (JObj fields) ->
  Py.dict_mem fields "error" = false ->
  Py.dict_get fields "best_flights" = None \/
    Py.dict_get fields "best_flights" = Some (JArr []) ->
  Py.dict_get fields "other_flights" = Some (JArr others) ->
  (10 < List.length others)%nat ->
  result (flights dep arr out rdate adults children) =
    Ok (dumps (JObj [ ("message",
                       JStr "No best flights found, showing other options");
                      ("flights", JArr (firstn 10 others)) ])) /\
  List.length (firstn 10 others) = 10%nat /\
  others = (firstn 10 others ++ skipn 10 others)%list.
Proof.
  intros Hsent Hnet Hok Hbody Herr Hbest Hother Hlen.
  apply flights_after in Hsent as (Hkey & -> & Hrun).
  erewrite Hrun by (eapply execute_success; eassumption).
  destruct fields as [|kv fields']; [discriminate|].
  repeat split.
  - shape. rewrite Herr.
    destruct Hbest as [-> | ->]; cbn [Py.truthy negb]; rewrite Hother;
      (destruct others; [inversion Hlen|]); reflexivity.
  - rewrite length_firstn. lia.
  - now rewrite firstn_skipn.
Qed.

(** *** Hotels *)

(** C6. An upstream document without the key [error] whose [properties] is a
    non-empty array: [search_hotels] returns its first 5 entries in their
    order, which are all of them when there are no more than 5. *)
Theorem properties_first_five
    loc cin cout adults children rooms cls sort_by (q : dict) (r : response)
    (fields : dict) (props : list json) :
  requests (hotels loc cin cout adults children rooms cls sort_by) = [q] ->
  network q = Ok r ->
  is_success r = true ->
  content r = Parsed (JObj fields) ->
  Py.dict_mem fields "error" = false ->
  Py.dict_get fields "properties" = Some (JArr props) ->
  props <> [] ->
  result (hotels loc cin cout adults children rooms cls sort_by) =
    Ok (dumps (JArr (firstn 5 props))) /\
  props = (firstn 5 props ++ skipn 5 props)%list /\
  ((5 <= List.length props)%nat -> List.length (firstn 5 props) = 5%nat) /\
  ((List.length props <= 5)%nat -> firstn 5 props = props).
Proof.
  intros Hsent Hnet Hok Hbody Herr Hprops Hne.
  apply hotels_after in Hsent as (Hkey & a & c & n & s & _ & _ & _ & _ & -> & Hrun).
  erewrite Hrun by (eapply execute_success; eassumption).
  destruct fields as [|kv fields']; [discriminate|].
  repeat split.
  - shape. rewrite Herr, Hprops. destruct props; [congruence|]. reflexivity.
  - now rewrite firstn_skipn.
  - intros Hlen. rewrite length_firstn. lia.
  - intros Hlen. now apply firstn_all2.
Qed.

(** *** Upstream status errors *)

Lemma error_status_not_success (r : response) :
  400 <= status_code r <= 599 -> is_success r = false.
Proof.
  intros H. unfold is_success.
  destruct (Z.leb_spec (status_code r) 299); [lia|].
  apply andb_false_r.
Qed.

Lemma status_error_doc_shape (r : response) :
  status_error_doc repr r =
    error_doc
      match content r with
      | Parsed (JObj body) =>
          match Py.dict_get body "error" with
          | Some detail => "SerpAPI error: " ++ str repr detail
          | None => "SerpAPI error: " ++ reason r
          end
      | _ => "HTTP error occurred: " ++ reason r
      end.
Proof.
  unfold status_error_doc.
  destruct (content r) as [[]|]; try reflexivity.
  destruct (Py.dict_get fields "error"); reflexivity.
Qed.

(** C8. In either tool, a response with a 4xx or 5xx status gives a result
    document with the field [error] and without the fields [flights],
    [properties] and [message]. The error text is the upstream one when the
    body is a JSON object with the field [error], and otherwise a generic
    message around the text of the status error. *)
Theorem http_error_status_gives_error_document
    (i : invocation) (q : dict) (r : response) :
  requests (tool i) = [q] ->
  network q = Ok r ->
  400 <= status_code r <= 599 ->
  exists (fields : dict) (msg : string),
    result (tool i) = Ok (dumps (JObj fields)) /\
    Py.dict_get fields "error" = Some (JStr msg) /\
    Py.dict_mem fields "flights" = false /\
    Py.dict_mem fields "properties" = false /\
    Py.dict_mem fields "message" = false /\
    msg = match content r with
          | Parsed (JObj body) =>
              match Py.dict_get body "error" with
              | Some detail => "SerpAPI error: " ++ str repr detail
              | None => "SerpAPI error: " ++ reason r
              end
          | _ => "HTTP error occurred: " ++ reason r
          end.
Proof.
  intros Hsent Hnet Hstatus.
  apply error_status_not_success in Hstatus.
  eexists [("error", JStr _)], _.
  split; [|repeat split; reflexivity].
  destruct i; cbn [call_tool] in *.
  - apply flights_after in Hsent as (Hkey & -> & Hrun).
    erewrite Hrun by (eapply execute_status_error; eassumption).
    rewrite status_error_doc_shape. reflexivity.
  - apply hotels_after in Hsent as (Hkey & a & c & n & s & _ & _ & _ & _ & -> & Hrun).
    erewrite Hrun by (eapply execute_status_error; eassumption).
    rewrite status_error_doc_shape. reflexivity.
Qed.

(** *** No credential *)

(** C3. Without a credential (the variable is unset or empty) the executor
    returns the error document and the log of requests is as it was; a call
    of either tool sends nothing, and what it returns is that document. *)
Theorem no_credential_no_request :
  api_key = None \/ api_key = Some "" ->
  (forall params sent,
     execute params sent = (Ok (error_doc missing_key_msg), sent)) /\
  (forall i, requests (tool i) = []) /\
  (forall i s, result (tool i) = Ok s ->
               s = dumps (error_doc missing_key_msg)).
Proof.
  intros Hunset.
  assert (Hkey : Py.truthy (of_optional api_key) = false)
    by (destruct Hunset as [-> | ->]; reflexivity).
  repeat split.
  - intros. now apply execute_unconfigured.
  - intros [dep arr out rdate adults children
           |loc cin cout adults children rooms cls sort_by]; cbn [call_tool].
    + now rewrite flights_requests, Hkey.
    + rewrite hotels_requests, Hkey.
      now destruct (to_int adults 1), (to_int children 0),
                   (to_int rooms 1), (to_int sort_by 8).
  - intros [dep arr out rdate adults children
           |loc cin cout adults children rooms cls sort_by] s;
      unfold result; cbn [call_tool].
    + unfold search_flights.
      erewrite try_bind_ok by (now apply execute_unconfigured).
      cbn. congruence.
    + unfold search_hotels. rewrite bind_lift.
      destruct (to_int adults 1); [|discriminate]. rewrite bind_lift.
      destruct (to_int children 0); [|discriminate]. rewrite bind_lift.
      destruct (to_int rooms 1); [|discriminate]. rewrite bind_lift.
      destruct (to_int sort_by 8); [|discriminate].
      erewrite try_bind_ok by (now apply execute_unconfigured).
      cbn. congruence.
Qed.

(** *** The queries *)

(** C7, as the code has it. The query of [search_flights], as built and as
    sent: with [return_date] unset or empty it has [type] 2 and no
    [return_date]; with a non-empty [return_date] it has [type] 1 and that
    [return_date]. *)
Theorem trip_type_follows_return_date
    dep arr out rdate adults children (q : dict) :
  q = flight_params dep arr out rdate adults children \/
    requests (flights dep arr out rdate adults children) = [q] ->
  match rdate with
  | None | Some EmptyString =>
      Py.dict_get q "type" = Some (JStr "2") /\
      Py.dict_get q "return_date" = None
  | Some date =>
      Py.dict_get q "type" = Some (JStr "1") /\
      Py.dict_get q "return_date" = Some (JStr date)
  end.
Proof.
  intros [-> | Hsent].
  - destruct rdate as [[|c date]|]; split; reflexivity.
  - apply flights_after in Hsent as (_ & -> & _).
    destruct rdate as [[|c date]|]; split; reflexivity.
Qed.

Lemma hotel_request_sort_by loc cin cout a c r cls s :
  Py.dict_get (hotel_request api_key loc cin cout a c r cls s) "sort_by" =
    Some (JInt s).
Proof.
  unfold hotel_request, with_key, hotel_params.
  destruct (Py.truthy (of_optional cls)); reflexivity.
Qed.

(** C2, as the code has it. A [sort_by] of magnitude at most [2 ^ 53] is sent
    as it is, whether or not it is one of 8, 3 and 13, except 0, which is
    sent as the default 8; and with a credential and the other counts in that
    range the request is sent. *)
Theorem sort_by_forwarded_exactly
    loc cin cout adults children rooms cls sort_by :
  - 2 ^ 53 <= sort_by <= 2 ^ 53 ->
  (forall q,
     requests (hotels loc cin cout adults children rooms cls sort_by) = [q] ->
     Py.dict_get q "sort_by" =
       Some (JInt (if sort_by =? 0 then 8 else sort_by))) /\
  (Py.truthy (of_optional api_key) = true ->
   - 2 ^ 53 <= adults <= 2 ^ 53 ->
   - 2 ^ 53 <= children <= 2 ^ 53 ->
   - 2 ^ 53 <= rooms <= 2 ^ 53 ->
   exists q,
     requests (hotels loc cin cout adults children rooms cls sort_by) = [q]).
Proof.
  intros Hsort.
  assert (Hcoerce : forall n default, - 2 ^ 53 <= n <= 2 ^ 53 ->
            to_int n default = Ok (if n =? 0 then default else n)).
  { intros n default Hn. destruct (Z.eqb_spec n 0) as [->|Hne].
    - apply to_int_zero.
    - now apply to_int_exact. }
  split.
  - intros q Hsent.
    apply hotels_after in Hsent as (_ & a & c & r & s & _ & _ & _ & Hs & -> & _).
    rewrite Hcoerce in Hs by assumption. injection Hs as <-.
    apply hotel_request_sort_by.
  - intros Hkey Ha Hc Hr. rewrite hotels_requests, !Hcoerce, Hkey by assumption.
    eexists. reflexivity.
Qed.

(** *** What escapes the tools *)

(** C1, where the code departs from it. The four coercions of
    [search_hotels] stand before its [try]: a count that [float] cannot hold
    raises [OverflowError] out of the tool, whatever the other arguments,
    the credential and the network, and nothing is sent. *)
Theorem search_hotels_overflow_escapes
    loc cin cout children rooms cls sort_by :
  result (hotels loc cin cout (2 ^ 1024) children rooms cls sort_by) =
    Raise (Exc OverflowError "int too large to convert to float") /\
  requests (hotels loc cin cout (2 ^ 1024) children rooms cls sort_by) = [].
Proof.
  assert (H : to_int (2 ^ 1024) 1 =
              Raise (Exc OverflowError "int too large to convert to float"))
    by (vm_compute; reflexivity).
  split.
  - unfold result, search_hotels. now rewrite bind_lift, H.
  - now rewrite hotels_requests, H.
Qed.

(** Whatever the document, the guarded interpretation returns a serialized
    document. *)
Lemma flights_guard_returns (data : json) (sent : list dict) :
  exists doc,
    try_except (interpret_flights float_repr data)
               (flights_failed float_repr) sent = (Ok (dumps doc), sent).
Proof.
  unfold interpret_flights, flights_failed, try_except, bind, lift, ret.
  destruct (Py.truthy data); cbn [negb]; [|eexists; reflexivity].
  destruct (Py.contains "error" data) as [[|]|]; try (eexists; reflexivity).
  destruct (Py.get data "best_flights" (JArr [])) as [best|];
    [|eexists; reflexivity].
  destruct (Py.truthy best); cbn [negb].
  - destruct (Py.len best); eexists; reflexivity.
  - destruct (Py.get data "other_flights" (JArr [])) as [others|];
      [|eexists; reflexivity].
    destruct (Py.truthy others).
    + destruct (Py.len others); [|eexists; reflexivity].
      destruct (Py.slice_to 10 others); eexists; reflexivity.
    + destruct (Py.keys data); eexists; reflexivity.
Qed.

Lemma hotels_guard_returns (data : json) (sent : list dict) :
  exists doc,
    try_except (interpret_hotels float_repr data)
               (hotels_failed float_repr) sent = (Ok (dumps doc), sent).
Proof.
  unfold interpret_hotels, hotels_failed, try_except, bind, lift, ret.
  destruct (Py.truthy data); cbn [negb]; [|eexists; reflexivity].
  destruct (Py.contains "error" data) as [[|]|]; try (eexists; reflexivity).
  destruct (Py.get data "properties" (JArr [])) as [props|];
    [|eexists; reflexivity].
  destruct (Py.truthy props); cbn [negb].
  - destruct (Py.len props); [|eexists; reflexivity].
    destruct (Py.slice_to 5 props); eexists; reflexivity.
  - destruct (Py.keys data); eexists; reflexivity.
Qed.

(** [search_flights] never raises: it returns a serialized document. *)
Lemma search_flights_always_returns dep arr out rdate adults children :
  exists doc,
    result (flights dep arr out rdate adults children) = Ok (dumps doc).
Proof.
  destruct (execute_total repr api_key network
              (flight_params dep arr out rdate adults children) [])
    as [data Hrun].
  destruct (flights_guard_returns data
              (if Py.truthy (of_optional api_key)
               then [with_key api_key
                       (flight_params dep arr out rdate adults children)]
               else [])) as [doc Hdoc].
  exists doc. unfold result, search_flights.
  rewrite (try_bind_ok _ _ _ _ _ _ Hrun). cbn [app] in *. now rewrite Hdoc.
Qed.

(** [search_hotels] returns a serialized document once its four counts are
    coerced. *)
Lemma search_hotels_returns_once_coerced
    loc cin cout adults children rooms cls sort_by a c r s :
  to_int adults 1 = Ok a -> to_int children 0 = Ok c ->
  to_int rooms 1 = Ok r -> to_int sort_by 8 = Ok s ->
  exists doc,
    result (hotels loc cin cout adults children rooms cls sort_by) =
      Ok (dumps doc).
Proof.
  intros Ha Hc Hr Hs.
  destruct (execute_total repr api_key network
              (hotel_params loc cin cout a c r cls s) [])
    as [data Hrun].
  destruct (hotels_guard_returns data
              (if Py.truthy (of_optional api_key)
               then [with_key api_key (hotel_params loc cin cout a c r cls s)]
               else [])) as [doc Hdoc].
  exists doc. unfold result, search_hotels.
  rewrite bind_lift, Ha, bind_lift, Hc, bind_lift, Hr, bind_lift, Hs.
  rewrite (try_bind_ok _ _ _ _ _ _ Hrun). cbn [app] in *. now rewrite Hdoc.
Qed.

End Tools.

(** ** The serialized result is never empty *)

Lemma str_int_nonempty (n : Z) : Py.str_int n <> "".
Proof.
  unfold Py.str_int. destruct n as [|p|p]; cbn.
  - discriminate.
  - destruct (Pos.to_uint p); discriminate.
  - discriminate.
Qed.

Lemma json_dumps_nonempty (float_repr : spec_float -> string) (v : json) :
  (forall f, float_repr f <> "") -> json_dumps float_repr v <> "".
Proof.
  intros Hfloat. unfold json_dumps, Json.dumps.
  destruct v as [|[|]|n|f|s|[|item items]|[|field fields]];
    cbn; try discriminate.
  - apply str_int_nonempty.
  - apply Hfloat.
Qed.


(** ** The theorems at sample runs *)

Lemma no_credential_no_request_witness :
  requests (call_tool sample_float_repr sample_repr None
              (answering (ok_response (JObj []))) sample_hotels) = [] /\
  requests (call_tool sample_float_repr sample_repr (Some "")
              (answering (ok_response (JObj []))) sample_flights) = [].
Proof.
  split.
  - exact (proj1 (proj2 (no_credential_no_request
                           sample_float_repr sample_repr None
                           (answering (ok_response (JObj [])))
                           (or_introl eq_refl))) sample_hotels).
  - exact (proj1 (proj2 (no_credential_no_request
                           sample_float_repr sample_repr (Some "")
                           (answering (ok_response (JObj [])))
                           (or_intror eq_refl))) sample_flights).
Defined.

Lemma best_flights_returned_in_full_witness :
  result (search_flights sample_float_repr sample_repr (Some "key")
            (answering (ok_response
               (JObj [ ("best_flights", JArr [flight 420; flight 515; flight 380]);
                       ("other_flights", JArr [flight 610]) ])))
            "JFK" "LHR" "2025-12-15" None 1 0) =
    Ok (json_dumps sample_float_repr
          (JArr [flight 420; flight 515; flight 380])).
Proof.
  eapply best_flights_returned_in_full.
  - reflexivity.
  - reflexivity.
  - reflexivity.
  - reflexivity.
  - reflexivity.
  - reflexivity.
  - discriminate.
Defined.

Lemma other_flights_first_ten_witness :
  result (search_flights sample_float_repr sample_repr (Some "key")
            (answering (ok_response
               (JObj [ ("best_flights", JArr []);
                       ("other_flights", JArr fifteen_flights) ])))
            "JFK" "LHR" "2025-12-15" (Some "2025-12-22") 2 1) =
    Ok (json_dumps sample_float_repr
          (JObj [ ("message",
                   JStr "No best flights found, showing other options");
                  ("flights",
                   JArr (map flight [1; 2; 3; 4; 5; 6; 7; 8; 9; 10])) ])).
Proof.
  refine (proj1 (other_flights_first_ten
                   sample_float_repr sample_repr (Some "key") _
                   "JFK" "LHR" "2025-12-15" (Some "2025-12-22") 2 1
                   _ (ok_response _)
                   [ ("best_flights", JArr []);
                     ("other_flights", JArr fifteen_flights) ]
                   fifteen_flights _ _ _ _ _ _ _ _)).
  - reflexivity.
  - reflexivity.
  - reflexivity.
  - reflexivity.
  - reflexivity.
  - right. reflexivity.
  - reflexivity.
  - cbn. lia.
Defined.

Lemma properties_first_five_witness :
  result (search_hotels sample_float_repr sample_repr (Some "key")
            (answering (ok_response (JObj [("properties", JArr eight_hotels)])))
            "Paris" "2025-12-15" "2025-12-20" 2 0 1 (Some "3,4") 3) =
    Ok (json_dumps sample_float_repr (JArr (map hotel [1; 2; 3; 4; 5]))).
Proof.
  refine (proj1 (properties_first_five
                   sample_float_repr sample_repr (Some "key") _
                   "Paris" "2025-12-15" "2025-12-20" 2 0 1 (Some "3,4") 3
                   _ (ok_response _)
                   [("properties", JArr eight_hotels)] eight_hotels
                   _ _ _ _ _ _ _)).
  - reflexivity.
  - reflexivity.
  - reflexivity.
  - reflexivity.
  - reflexivity.
  - reflexivity.
  - discriminate.
Defined.

Lemma trip_type_follows_return_date_witness :
  Py.dict_get (flight_params "JFK" "LHR" "2025-12-15" (Some "2025-12-22") 1 0)
              "type" = Some (JStr "1") /\
  Py.dict_get (flight_params "JFK" "LHR" "2025-12-15" (Some "2025-12-22") 1 0)
              "return_date" = Some (JStr "2025-12-22").
Proof.
  exact (trip_type_follows_return_date
           sample_float_repr sample_repr (Some "key")
           (answering (ok_response (JObj [])))
           "JFK" "LHR" "2025-12-15" (Some "2025-12-22") 1 0
           _ (or_introl eq_refl)).
Defined.

(** C7 as stated fails on an empty [return_date]: it is set, and the query,
    as built and as sent, has [type] 2 and no [return_date]. *)
Lemma empty_return_date_is_one_way :
  Py.dict_get (flight_params "JFK" "LHR" "2025-12-15" (Some "") 1 0) "type"
    = Some (JStr "2") /\
  Py.dict_get (flight_params "JFK" "LHR" "2025-12-15" (Some "") 1 0) "type"
    <> Some (JStr "1") /\
  Py.dict_get (flight_params "JFK" "LHR" "2025-12-15" (Some "") 1 0)
              "return_date" = None /\
  exists q,
    requests (search_flights sample_float_repr sample_repr (Some "key")
                (answering (ok_response (JObj [])))
                "JFK" "LHR" "2025-12-15" (Some "") 1 0) = [q] /\
    Py.dict_get q "type" = Some (JStr "2") /\
    Py.dict_get q "return_date" = None.
Proof.
  repeat split; try reflexivity; try discriminate.
  eexists. repeat split; reflexivity.
Qed.

Lemma sort_by_forwarded_exactly_witness :
  exists q,
    requests (search_hotels sample_float_repr sample_repr (Some "key")
                (answering (ok_response (JObj [])))
                "Paris" "2025-12-15" "2025-12-20" 2 0 1 None 7) = [q] /\
    Py.dict_get q "sort_by" = Some (JInt 7).
Proof.
  destruct (sort_by_forwarded_exactly
              sample_float_repr sample_repr (Some "key")
              (answering (ok_response (JObj [])))
              "Paris" "2025-12-15" "2025-12-20" 2 0 1 None 7
              ltac:(lia)) as [Hvalue Hsent].
  destruct (Hsent eq_refl ltac:(lia) ltac:(lia) ltac:(lia)) as [q Hq].
  exists q. split; [exact Hq | exact (Hvalue q Hq)].
Defined.

(** C2 as stated fails on [sort_by] 0: the query that is sent has [sort_by]
    8, the default. *)
Lemma sort_by_zero_becomes_default :
  exists q,
    requests (search_hotels sample_float_repr sample_repr (Some "key")
                (answering (ok_response (JObj [])))
                "Paris" "2025-12-15" "2025-12-20" 2 0 1 None 0) = [q] /\
    Py.dict_get q "sort_by" = Some (JInt 8) /\
    Py.dict_get q "sort_by" <> Some (JInt 0).
Proof.
  eexists. split; [reflexivity|]. split; [reflexivity|discriminate].
Qed.

Lemma http_error_status_gives_error_document_witness :
  exists fields,
    result (call_tool sample_float_repr sample_repr (Some "key")
              (answering (Response 401 "Client error '401 Unauthorized'"
                            (Parsed (JObj [("error", JStr "Invalid API key.")]))))
              sample_flights) = Ok (json_dumps sample_float_repr (JObj fields)) /\
    Py.dict_get fields "error" = Some (JStr "SerpAPI error: Invalid API key.") /\
    Py.dict_mem fields "flights" = false /\
    Py.dict_mem fields "properties" = false /\
    Py.dict_mem fields "message" = false.
Proof.
  destruct (http_error_status_gives_error_document
              sample_float_repr sample_repr (Some "key")
              (answering (Response 401 "Client error '401 Unauthorized'"
                            (Parsed (JObj [("error", JStr "Invalid API key.")]))))
              sample_flights _ _ eq_refl eq_refl ltac:(cbn; lia))
    as (fields & msg & Hresult & Herror & Hflights & Hprops & Hmsg & ->).
  exists fields. auto.
Defined.

Lemma falsy_document_is_fetch_error_witness :
  result (call_tool sample_float_repr sample_repr (Some "key")
            (answering (ok_response (JObj []))) sample_hotels) =
    Ok (json_dumps sample_float_repr (error_doc "Unable to fetch hotel data")).
Proof.
  exact (proj1 (falsy_document_is_fetch_error
                  sample_float_repr sample_repr (Some "key")
                  (answering (ok_response (JObj []))) sample_hotels
                  _ _ (JObj []) eq_refl eq_refl eq_refl eq_refl eq_refl)).
Defined.

Lemma error_key_passes_document_through_witness :
  result (call_tool sample_float_repr sample_repr (Some "key")
            (answering (ok_response
               (JObj [ ("error", JNull);
                       ("best_flights", JArr [flight 420; flight 515]) ])))
            sample_flights) =
    Ok (json_dumps sample_float_repr
          (JObj [ ("error", JNull);
                  ("best_flights", JArr [flight 420; flight 515]) ])).
Proof.
  exact (error_key_passes_document_through
           sample_float_repr sample_repr (Some "key")
           (answering (ok_response
              (JObj [ ("error", JNull);
                      ("best_flights", JArr [flight 420; flight 515]) ])))
           sample_flights _ _ _ eq_refl eq_refl eq_refl eq_refl eq_refl).
Defined.

(** * More of the pipeline *)

(** ** The executor: what leaves, and what comes back on failure *)

Section ExecutorFailures.

Variable repr : json -> string.
Variable api_key : option string.
Variable network : dict -> outcome response.

Local Abbreviation execute := (make_serpapi_request repr api_key network).

(** [client.get] raised: the exception is caught and told. *)
Lemma execute_transport_failure (params sent : list _) cls msg :
  Py.truthy (of_optional api_key) = true ->
  network (with_key api_key params) = Raise (Exc cls msg) ->
  execute params sent =
    (Ok (error_doc ("Request failed: " ++ msg)),
     (sent ++ [with_key api_key params])%list).
Proof.
  intros Hkey Hnet.
  unfold make_serpapi_request, bind, lift, try_except, client_get.
  rewrite getitem_set_same, Hkey. fold (with_key api_key params). simpl.
  now rewrite Hnet.
Qed.

(** A 2xx response whose body is not JSON: [response.json()] raised. *)
Lemma execute_not_json (params sent : list _) (r : response) msg :
  Py.truthy (of_optional api_key) = true ->
  network (with_key api_key params) = Ok r ->
  is_success r = true ->
  content r = NotJson msg ->
  execute params sent =
    (Ok (error_doc ("Request failed: " ++ msg)),
     (sent ++ [with_key api_key params])%list).
Proof.
  intros Hkey Hnet Hok Hbody.
  unfold make_serpapi_request, bind, lift, try_except, client_get.
  rewrite getitem_set_same, Hkey. fold (with_key api_key params). simpl.
  rewrite Hnet. unfold raise_for_status. rewrite Hok. simpl.
  unfold response_json. now rewrite Hbody.
Qed.

End ExecutorFailures.

Lemma truthy_key (key : string) :
  key <> "" -> Py.truthy (of_optional (Some key)) = true.
Proof. now destruct key. Qed.


(** ** The tools: failures of the request *)

Section ToolFailures.

Variable float_repr : spec_float -> string.
Variable repr : json -> string.
Variable api_key : option string.
Variable network : dict -> outcome response.

Local Abbreviation execute := (make_serpapi_request repr api_key network).
Local Abbreviation flights := (search_flights float_repr repr api_key network).
Local Abbreviation hotels := (search_hotels float_repr repr api_key network).
Local Abbreviation tool := (call_tool float_repr repr api_key network).
Local Abbreviation dumps := (json_dumps float_repr).

Ltac interpret :=
  unfold interpret_flights, interpret_hotels, try_except, bind, lift, ret;
  cbn [Py.truthy Py.contains Py.get Py.len Py.keys Py.slice_to negb fst snd].

(** An invocation that sent [q] goes on from what the executor returns for
    the query without the credential. *)
Lemma tool_after (i : invocation) (q : dict) :
  requests (tool i) = [q] ->
  Py.truthy (of_optional api_key) = true /\
  exists params,
    q = with_key api_key params /\
    forall data sent',
      execute params [] = (Ok data, sent') ->
      result (tool i) =
        match i with
        | SearchFlights _ _ _ _ _ _ =>
            fst (try_except (interpret_flights float_repr data)
                            (flights_failed float_repr) sent')
        | SearchHotels _ _ _ _ _ _ _ _ =>
            fst (try_except (interpret_hotels float_repr data)
                            (hotels_failed float_repr) sent')
        end.
Proof.
  intros Hsent. destruct i; cbn [call_tool] in *.
  - apply flights_after in Hsent as (Hkey & -> & Hrun).
    split; [assumption|]. eexists. split; [reflexivity|exact Hrun].
  - apply hotels_after in Hsent
      as (Hkey & a & c & n & s & _ & _ & _ & _ & -> & Hrun).
    split; [assumption|]. eexists. split; [reflexivity|exact Hrun].
Qed.

(** The executor's error document goes out as the result of either tool. *)
Lemma error_doc_goes_out (i : invocation) (msg : string) (sent' : list dict) :
  match i with
  | SearchFlights _ _ _ _ _ _ =>
      fst (try_except (interpret_flights float_repr (error_doc msg))
                      (flights_failed float_repr) sent')
  | SearchHotels _ _ _ _ _ _ _ _ =>
      fst (try_except (interpret_hotels float_repr (error_doc msg))
                      (hotels_failed float_repr) sent')
  end = Ok (dumps (error_doc msg)).
Proof. now destruct i. Qed.

(** X2. In either tool, when the request fails in transport (connection
    failure, timeout: [client.get] raises), the result is the error document
    [Request failed: ...] with the text of the exception; the one request
    that was sent is not sent again. *)
Theorem transport_failure_is_request_failed
    (i : invocation) (q : dict) (cls : exn_class) (msg : string) :
  requests (tool i) = [q] ->
  network q = Raise (Exc cls msg) ->
  result (tool i) = Ok (dumps (error_doc ("Request failed: " ++ msg))).
Proof.
  intros Hsent Hnet.
  apply tool_after in Hsent as (Hkey & params & -> & Hrun).
  erewrite Hrun by (eapply execute_transport_failure; eassumption).
  apply error_doc_goes_out.
Qed.

(** X3. In either tool, a 2xx response whose body is not JSON gives the error
    document [Request failed: ...] with the text of the decoding error. *)
Theorem malformed_body_is_request_failed
    (i : invocation) (q : dict) (r : response) (msg : string) :
  requests (tool i) = [q] ->
  network q = Ok r ->
  is_success r = true ->
  content r = NotJson msg ->
  result (tool i) = Ok (dumps (error_doc ("Request failed: " ++ msg))).
Proof.
  intros Hsent Hnet Hok Hbody.
  apply tool_after in Hsent as (Hkey & params & -> & Hrun).
  erewrite Hrun by (eapply execute_not_json; eassumption).
  apply error_doc_goes_out.
Qed.

(** ** The tools: nothing found *)

(** X4. An upstream object without the key [error] whose [best_flights] and
    [other_flights] are each absent or falsy: [search_flights] returns the
    message [No flights found] with the keys of the document, all of them
    and in the document's order. *)
Theorem no_flights_lists_the_keys
    dep arr out rdate adults children (q : dict) (r : response)
    (fields : dict) :
  requests (flights dep arr out rdate adults children) = [q] ->
  network q = Ok r ->
  is_success r = true ->
  content r = Parsed (JObj fields) ->
  fields <> [] ->
  Py.dict_mem fields "error" = false ->
  match Py.dict_get fields "best_flights" with
  | Some best => Py.truthy best = false
  | None => True
  end ->
  match Py.dict_get fields "other_flights" with
  | Some others => Py.truthy others = false
  | None => True
  end ->
  result (flights dep arr out rdate adults children) =
    Ok (dumps (JObj [ ("message", JStr "No flights found");
                      ("available_keys",
                       JArr (map (fun kv => JStr (fst kv)) fields)) ])).
Proof.
  intros Hsent Hnet Hok Hbody Hne Herr Hbest Hother.
  apply flights_after in Hsent as (Hkey & -> & Hrun).
  erewrite Hrun by (eapply execute_success; eassumption).
  destruct fields as [|kv fields']; [congruence|].
  interpret. rewrite Herr.
  destruct (Py.dict_get (kv :: fields') "best_flights") as [best|];
    [rewrite Hbest|]; cbn [Py.truthy negb];
    (destruct (Py.dict_get (kv :: fields') "other_flights") as [others|];
     [rewrite Hother|]); reflexivity.
Qed.

(** X5. An upstream object without the key [error] whose [properties] is
    absent or falsy: [search_hotels] returns the message [No hotels found]
    with the keys of the document, all of them and in the document's
    order. *)
Theorem no_hotels_lists_the_keys
    loc cin cout adults children rooms cls sort_by (q : dict) (r : response)
    (fields : dict) :
  requests (hotels loc cin cout adults children rooms cls sort_by) = [q] ->
  network q = Ok r ->
  is_success r = true ->
  content r = Parsed (JObj fields) ->
  fields <> [] ->
  Py.dict_mem fields "error" = false ->
  match Py.dict_get fields "properties" with
  | Some props => Py.truthy props = false
  | None => True
  end ->
  result (hotels loc cin cout adults children rooms cls sort_by) =
    Ok (dumps (JObj [ ("message", JStr "No hotels found");
                      ("available_keys",
                       JArr (map (fun kv => JStr (fst kv)) fields)) ])).
Proof.
  intros Hsent Hnet Hok Hbody Hne Herr Hprops.
  apply hotels_after in Hsent
    as (Hkey & a & c & n & s & _ & _ & _ & _ & -> & Hrun).
  erewrite Hrun by (eapply execute_success; eassumption).
  destruct fields as [|kv fields']; [congruence|].
  interpret. rewrite Herr.
  destruct (Py.dict_get (kv :: fields') "properties") as [props|];
    [rewrite Hprops|]; reflexivity.
Qed.

(** X6. With [best_flights] absent or falsy and an [other_flights] array of
    1 to 10 entries, [search_flights] returns the message with all of
    [other_flights]: nothing is cut below the bound. *)
Theorem few_other_flights_all_returned
    dep arr out rdate adults children (q : dict) (r : response)
    (fields : dict) (others : list json) :
  requests (flights dep arr out rdate adults children) = [q] ->
  network q = Ok r ->
  is_success r = true ->
  content r = Parsed (JObj fields) ->
  Py.dict_mem fields "error" = false ->
  match Py.dict_get fields "best_flights" with
  | Some best => Py.truthy best = false
  | None => True
  end ->
  Py.dict_get fields "other_flights" = Some (JArr others) ->
  others <> [] ->
  (List.length others <= 10)%nat ->
  result (flights dep arr out rdate adults children) =
    Ok (dumps (JObj [ ("message",
                       JStr "No best flights found, showing other options");
                      ("flights", JArr others) ])).
Proof.
  intros Hsent Hnet Hok Hbody Herr Hbest Hother Hne Hlen.
  apply flights_after in Hsent as (Hkey & -> & Hrun).
  erewrite Hrun by (eapply execute_success; eassumption).
  destruct fields as [|kv fields']; [discriminate|].
  interpret. rewrite Herr.
  destruct (Py.dict_get (kv :: fields') "best_flights") as [best|];
    [rewrite Hbest|]; cbn [Py.truthy negb]; rewrite Hother;
    (destruct others as [|o others']; [congruence|]);
    interpret; rewrite firstn_all2 by assumption; reflexivity.
Qed.

End ToolFailures.

(** ** The tools: the queries on the wire *)

Section Wire.

Variable float_repr : spec_float -> string.
Variable repr : json -> string.
Variable network : dict -> outcome response.

(** A count in the range where [int(float(n))] is exact. *)
Lemma to_int_in_range (n default : Z) :
  - 2 ^ 53 <= n <= 2 ^ 53 ->
  to_int n default = Ok (if n =? 0 then default else n).
Proof.
  intros Hn. destruct (Z.eqb_spec n 0) as [->|Hne].
  - apply to_int_zero.
  - now apply to_int_exact.
Qed.


(** X8. With a credential and the four counts of magnitude at most [2 ^ 53],
    [search_hotels] sends exactly one request, and it holds these parameters
    and no other, in this order: the fixed engine, locale and currency, the
    location and the dates as given, the counts with 0 replaced by the
    defaults 1, 0, 1 and 8, the hotel class when it is given and not empty,
    and the credential. *)
Theorem hotels_query_on_the_wire
    (key : string) loc cin cout adults children rooms cls sort_by :
  key <> "" ->
  - 2 ^ 53 <= adults <= 2 ^ 53 ->
  - 2 ^ 53 <= children <= 2 ^ 53 ->
  - 2 ^ 53 <= rooms <= 2 ^ 53 ->
  - 2 ^ 53 <= sort_by <= 2 ^ 53 ->
  requests (search_hotels float_repr repr (Some key) network
              loc cin cout adults children rooms cls sort_by) =
    [ ( [ ("engine", JStr "google_hotels");
          ("hl", JStr "en");
          ("gl", JStr "us");
          ("q", JStr loc);
          ("check_in_date", JStr cin);
          ("check_out_date", JStr cout);
          ("currency", JStr "USD");
          ("adults", JInt (if adults =? 0 then 1 else adults));
          ("children", JInt children);
          ("rooms", JInt (if rooms =? 0 then 1 else rooms));
          ("sort_by", JInt (if sort_by =? 0 then 8 else sort_by)) ]
        ++ match cls with
           | None | Some EmptyString => []
           | Some class => [ ("hotel_class", JStr class) ]
           end
        ++ [ ("api_key", JStr key) ] )%list ].
Proof.
  intros Hkey Ha Hc Hr Hs.
  rewrite hotels_requests, !to_int_in_range, (truthy_key key Hkey) by assumption.
  replace (if children =? 0 then 0 else children) with children
    by (destruct (Z.eqb_spec children 0); congruence).
  destruct cls as [[|c class]|]; reflexivity.
Qed.

(** X9. Whatever the counts, a request that [search_hotels] sends has the
    key [hotel_class] only when the caller gave a non-empty one, and then
    with the caller's value. *)
Theorem hotel_class_only_when_given
    (api_key : option string)
    loc cin cout adults children rooms cls sort_by (q : dict) :
  requests (search_hotels float_repr repr api_key network
              loc cin cout adults children rooms cls sort_by) = [q] ->
  Py.dict_get q "hotel_class" =
    match cls with
    | None | Some EmptyString => None
    | Some class => Some (JStr class)
    end.
Proof.
  intros Hsent.
  apply hotels_after in Hsent
    as (_ & a & c & n & s & _ & _ & _ & _ & -> & _).
  destruct cls as [[|ch class]|]; reflexivity.
Qed.

(** ** The tools: what they return and how often they ask *)

(** X10. [search_flights] never raises: for every input, with or without a
    credential and whatever the network does, it returns a serialized
    document, and the string is not empty when no float is written as the
    empty string. *)
Theorem search_flights_never_raises
    (api_key : option string) dep arr out rdate adults children :
  (forall f, float_repr f <> "") ->
  exists doc,
    result (search_flights float_repr repr api_key network
              dep arr out rdate adults children) =
      Ok (json_dumps float_repr doc) /\
    json_dumps float_repr doc <> "".
Proof.
  intros Hfloat.
  destruct (search_flights_always_returns float_repr repr api_key network
              dep arr out rdate adults children) as [doc Hdoc].
  exists doc. split; [exact Hdoc|]. now apply json_dumps_nonempty.
Qed.

(** X11. With the four counts of magnitude at most [2 ^ 53],
    [search_hotels] never raises: with or without a credential and whatever
    the network does, it returns a serialized document. *)
Theorem search_hotels_returns_in_range
    (api_key : option string)
    loc cin cout adults children rooms cls sort_by :
  - 2 ^ 53 <= adults <= 2 ^ 53 ->
  - 2 ^ 53 <= children <= 2 ^ 53 ->
  - 2 ^ 53 <= rooms <= 2 ^ 53 ->
  - 2 ^ 53 <= sort_by <= 2 ^ 53 ->
  exists doc,
    result (search_hotels float_repr repr api_key network
              loc cin cout adults children rooms cls sort_by) =
      Ok (json_dumps float_repr doc).
Proof.
  intros Ha Hc Hr Hs.
  eapply search_hotels_returns_once_coerced; now apply to_int_in_range.
Qed.

(** X12. An invocation of either tool sends at most one request, whatever
    the network answers: a failure is not retried. *)
Theorem at_most_one_request (api_key : option string) (i : invocation) :
  requests (call_tool float_repr repr api_key network i) = [] \/
  exists q, requests (call_tool float_repr repr api_key network i) = [q].
Proof.
  destruct i as [dep arr out rdate adults children
                |loc cin cout adults children rooms cls sort_by];
    cbn [call_tool].
  - rewrite flights_requests.
    destruct (Py.truthy (of_optional api_key)); [right; eexists|left];
      reflexivity.
  - rewrite hotels_requests.
    destruct (to_int adults 1), (to_int children 0),
             (to_int rooms 1), (to_int sort_by 8); try (left; reflexivity).
    destruct (Py.truthy (of_optional api_key)); [right; eexists|left];
      reflexivity.
Qed.

End Wire.

(** ** The coercion of a count: what it can raise *)

Lemma shr_1_half (mrs : shr_record) :
  0 <= shr_m mrs -> shr_m (shr_1 mrs) = shr_m mrs / 2.
Proof.
  destruct mrs as [m r s]. cbn [shr_m]. intros Hm.
  destruct m as [|[p|p|]|p]; cbn [shr_1 shr_m].
  - reflexivity.
  - change (Zpos p~1) with (2 * Zpos p + 1).
    apply Z.div_unique with 1; lia.
  - change (Zpos p~0) with (2 * Zpos p).
    apply Z.div_unique with 0; lia.
  - reflexivity.
  - lia.
Qed.

Lemma shr_m_iter (p : positive) (mrs : shr_record) :
  0 <= shr_m mrs ->
  shr_m (iter_pos shr_1 p mrs) = shr_m mrs / 2 ^ Zpos p.
Proof.
  revert mrs. induction p as [p IH|p IH|]; intros mrs Hm; cbn [iter_pos].
  - assert (H1 : 0 <= shr_m (shr_1 mrs))
      by (rewrite shr_1_half by assumption; apply Z.div_pos; lia).
    assert (H2 : 0 <= shr_m (iter_pos shr_1 p (shr_1 mrs)))
      by (rewrite IH by assumption; apply Z.div_pos; lia).
    rewrite IH, IH, shr_1_half by assumption.
    rewrite !Z.div_div by lia. f_equal.
    change (Zpos p~1) with (2 * Zpos p + 1).
    rewrite Z.pow_add_r, Z.pow_1_r by lia.
    replace (2 * Zpos p) with (Zpos p + Zpos p) by lia.
    rewrite Z.pow_add_r by lia. lia.
  - assert (H2 : 0 <= shr_m (iter_pos shr_1 p mrs))
      by (rewrite IH by assumption; apply Z.div_pos; lia).
    rewrite IH, IH by assumption.
    rewrite Z.div_div by lia. f_equal.
    change (Zpos p~0) with (2 * Zpos p).
    replace (2 * Zpos p) with (Zpos p + Zpos p) by lia.
    rewrite Z.pow_add_r by lia. lia.
  - rewrite shr_1_half by assumption. reflexivity.
Qed.

Lemma shr_nonneg (mrs : shr_record) (e n : Z) :
  0 <= shr_m mrs -> 0 <= shr_m (fst (shr mrs e n)).
Proof.
  intros Hm. destruct n as [|p|p]; cbn [shr fst]; try assumption.
  rewrite shr_m_iter by assumption. apply Z.div_pos; lia.
Qed.

Lemma round_nearest_even_nonneg (m : Z) (l : location) :
  0 <= m -> 0 <= round_nearest_even m l.
Proof.
  intros Hm. destruct l as [|[]]; cbn [round_nearest_even]; try lia.
  destruct (Z.even m); lia.
Qed.

Lemma shr_record_of_loc_m (m : Z) (l : location) :
  shr_m (shr_record_of_loc m l) = m.
Proof. now destruct l as [|[]]. Qed.

Lemma binary_round_aux_not_nan (s : bool) (m e : Z) (l : location) :
  0 <= m -> binary_round_aux 53 1024 s m e l <> S754_nan.
Proof.
  intros Hm. unfold binary_round_aux, shr_fexp.
  destruct (shr (shr_record_of_loc m l) e _) as [mrs' e'] eqn:E1.
  assert (H1 : 0 <= shr_m mrs').
  { change mrs' with (fst (mrs', e')). rewrite <- E1. apply shr_nonneg.
    now rewrite shr_record_of_loc_m. }
  destruct (shr (shr_record_of_loc _ loc_Exact) e' _) as [mrs'' e''] eqn:E2.
  assert (H2 : 0 <= shr_m mrs'').
  { change mrs'' with (fst (mrs'', e'')). rewrite <- E2. apply shr_nonneg.
    rewrite shr_record_of_loc_m. now apply round_nearest_even_nonneg. }
  destruct (shr_m mrs'') as [|p|p]; [discriminate| |lia].
  destruct (e'' <=? 1024 - 53); discriminate.
Qed.

Lemma binary_round_not_nan (s : bool) (m : positive) (e : Z) :
  binary_round 53 1024 s m e <> S754_nan.
Proof.
  unfold binary_round.
  destruct (shl_align m e _) as [mz ez].
  apply binary_round_aux_not_nan. lia.
Qed.

Lemma binary_round_overflow (s : bool) (m : positive) :
  2 ^ 1024 <= Zpos m -> binary_round 53 1024 s m 0 = S754_infinity s.
Proof.
  intros Hm. pose proof (digits2_pos_bounds m) as [Hlo Hhi].
  assert (Hd : 1024 < Zpos (digits2_pos m)).
  { apply (Z.pow_lt_mono_r_iff 2); lia. }
  unfold binary_round, shl_align, fexp, emin.
  rewrite Z.add_0_r, Z.sub_0_r, Z.max_l by lia.
  destruct (Zpos (digits2_pos m) - 53) as [|p|p] eqn:Hp; try lia.
  unfold binary_round_aux, shr_fexp, fexp, emin. cbn [Zdigits2].
  rewrite Z.add_0_r, Z.sub_0_r, Z.max_l by lia. rewrite Hp.
  cbn [shr shr_record_of_loc].
  set (mrs' := iter_pos shr_1 p _).
  assert (Hm' : 0 < shr_m mrs').
  { unfold mrs'. rewrite shr_m_iter by (cbn; lia). cbn [shr_m].
    apply Z.div_str_pos. split; [lia|].
    apply Z.le_trans with (2 ^ (Zpos (digits2_pos m) - 1)); [|assumption].
    apply Z.pow_le_mono_r; lia. }
  assert (Hround : 0 < round_nearest_even (shr_m mrs') (loc_of_shr_record mrs')).
  { destruct (loc_of_shr_record mrs') as [|[]]; cbn [round_nearest_even]; try lia.
    destruct (Z.even (shr_m mrs')); lia. }
  destruct (round_nearest_even (shr_m mrs') (loc_of_shr_record mrs'))
    as [|m1|m1]; try lia.
  cbn [Zdigits2]. pose proof (digits2_pos_bounds m1) as [Hlo1 Hhi1].
  rewrite Z.max_l by lia.
  destruct (Zpos (digits2_pos m1) + (0 + Zpos p) - 53 - (0 + Zpos p))
    as [|k|k] eqn:Hk; cbn [shr shr_m].
  - destruct (Z.leb_spec (0 + Zpos p) (1024 - 53)); [lia|reflexivity].
  - rewrite shr_m_iter by (cbn; lia). cbn [shr_m].
    assert (Hq : 0 < Zpos m1 / 2 ^ Zpos k).
    { apply Z.div_str_pos. split; [lia|].
      apply Z.le_trans with (2 ^ (Zpos (digits2_pos m1) - 1)); [|assumption].
      apply Z.pow_le_mono_r; lia. }
    destruct (Zpos m1 / 2 ^ Zpos k) as [|m2|m2]; try lia.
    destruct (Z.leb_spec (0 + Zpos p + Zpos k) (1024 - 53)); [lia|reflexivity].
  - destruct (Z.leb_spec (0 + Zpos p) (1024 - 53)); [lia|reflexivity].
Qed.

(** The coercion returns an [int] or raises [OverflowError], nothing else. *)
Lemma to_int_ok_or_overflow (n default : Z) :
  (exists m, to_int n default = Ok m) \/
  to_int n default =
    Raise (Exc OverflowError "int too large to convert to float").
Proof.
  unfold to_int. destruct (Py.truthy (JInt n)); [|left; eexists; reflexivity].
  unfold Py.float_of_int.
  destruct n as [|m|m]; cbn [binary_normalize].
  - left. eexists. reflexivity.
  - pose proof (binary_round_not_nan false m 0) as Hnan.
    destruct (binary_round 53 1024 false m 0);
      try (left; eexists; reflexivity); [right; reflexivity|congruence].
  - pose proof (binary_round_not_nan true m 0) as Hnan.
    destruct (binary_round 53 1024 true m 0);
      try (left; eexists; reflexivity); [right; reflexivity|congruence].
Qed.

(** From [2 ^ 1024] on, in either direction, the coercion raises. *)
Lemma to_int_overflow (n default : Z) :
  2 ^ 1024 <= Z.abs n ->
  to_int n default =
    Raise (Exc OverflowError "int too large to convert to float").
Proof.
  intros Hn. unfold to_int, Py.float_of_int.
  destruct n as [|m|m]; cbn [Py.truthy Z.eqb negb binary_normalize].
  - cbn in Hn. lia.
  - now rewrite binary_round_overflow by (cbn in Hn; lia).
  - now rewrite binary_round_overflow by (cbn in Hn; lia).
Qed.

(** ** [search_hotels]: what it lets out *)

Section HotelsEscapes.

Variable float_repr : spec_float -> string.
Variable repr : json -> string.
Variable api_key : option string.
Variable network : dict -> outcome response.

Local Abbreviation hotels := (search_hotels float_repr repr api_key network).
Local Abbreviation tool := (call_tool float_repr repr api_key network).
Local Abbreviation dumps := (json_dumps float_repr).

Local Abbreviation overflow :=
  (Exc OverflowError "int too large to convert to float").

(** X13. [search_hotels] lets out one exception only, the [OverflowError] of
    a count too large for [float], and then it has sent nothing: in every
    other case it returns a serialized document. *)
Theorem search_hotels_raises_only_overflow
    loc cin cout adults children rooms cls sort_by :
  (exists doc,
     result (hotels loc cin cout adults children rooms cls sort_by) =
       Ok (dumps doc)) \/
  (result (hotels loc cin cout adults children rooms cls sort_by) =
     Raise overflow /\
   requests (hotels loc cin cout adults children rooms cls sort_by) = []).
Proof.
  destruct (to_int_ok_or_overflow adults 1) as [[a Ha]|Ha];
    [|right; rewrite hotels_requests; unfold result, search_hotels;
      now rewrite bind_lift, Ha].
  destruct (to_int_ok_or_overflow children 0) as [[c Hc]|Hc];
    [|right; rewrite hotels_requests; unfold result, search_hotels;
      now rewrite bind_lift, Ha, bind_lift, Hc].
  destruct (to_int_ok_or_overflow rooms 1) as [[r Hr]|Hr];
    [|right; rewrite hotels_requests; unfold result, search_hotels;
      now rewrite bind_lift, Ha, bind_lift, Hc, bind_lift, Hr].
  destruct (to_int_ok_or_overflow sort_by 8) as [[s Hs]|Hs];
    [|right; rewrite hotels_requests; unfold result, search_hotels;
      now rewrite bind_lift, Ha, bind_lift, Hc, bind_lift, Hr, bind_lift, Hs].
  left. now apply search_hotels_returns_once_coerced with a c r s.
Qed.

(** X14. When one of the four counts has magnitude [2 ^ 1024] or more,
    [search_hotels] raises [OverflowError] and sends nothing, whatever the
    other arguments, the credential and the network. *)
Theorem huge_count_raises_overflow
    loc cin cout adults children rooms cls sort_by :
  2 ^ 1024 <= Z.abs adults \/ 2 ^ 1024 <= Z.abs children \/
  2 ^ 1024 <= Z.abs rooms \/ 2 ^ 1024 <= Z.abs sort_by ->
  result (hotels loc cin cout adults children rooms cls sort_by) =
    Raise overflow /\
  requests (hotels loc cin cout adults children rooms cls sort_by) = [].
Proof.
  intros Hhuge. rewrite hotels_requests. unfold result, search_hotels.
  destruct (to_int_ok_or_overflow adults 1) as [[a Ha]|Ha];
    rewrite bind_lift, Ha; [|now split].
  destruct (to_int_ok_or_overflow children 0) as [[c Hc]|Hc];
    rewrite bind_lift, Hc; [|now split].
  destruct (to_int_ok_or_overflow rooms 1) as [[r Hr]|Hr];
    rewrite bind_lift, Hr; [|now split].
  destruct (to_int_ok_or_overflow sort_by 8) as [[s Hs]|Hs];
    rewrite bind_lift, Hs; [|now split].
  destruct Hhuge as [H|[H|[H|H]]].
  - rewrite (to_int_overflow adults 1 H) in Ha. discriminate.
  - rewrite (to_int_overflow children 0 H) in Hc. discriminate.
  - rewrite (to_int_overflow rooms 1 H) in Hr. discriminate.
  - rewrite (to_int_overflow sort_by 8 H) in Hs. discriminate.
Qed.

End HotelsEscapes.

(** ** A document that is not an object *)

Section NotAnObject.

Variable float_repr : spec_float -> string.
Variable repr : json -> string.
Variable api_key : option string.
Variable network : dict -> outcome response.

Local Abbreviation tool := (call_tool float_repr repr api_key network).
Local Abbreviation dumps := (json_dumps float_repr).

(** X15. In either tool, a truthy 2xx document that is not an object never
    gives results. When ["error" in data] holds of it (an array with the
    string [error] among its entries, a string with [error] inside) it is
    returned as it came; otherwise the exception of the failing operation is
    caught and the result is the error document [Flight search failed: ...]
    or [Hotel search failed: ...]. *)
Theorem non_object_document_echoed_or_refused
    (i : invocation) (q : dict) (r : response) (doc : json) :
  requests (tool i) = [q] ->
  network q = Ok r ->
  is_success r = true ->
  content r = Parsed doc ->
  Py.truthy doc = true ->
  (forall fields, doc <> JObj fields) ->
  match Py.contains "error" doc with
  | Ok true => result (tool i) = Ok (dumps doc)
  | _ =>
      exists msg,
        result (tool i) =
          Ok (dumps (error_doc
                       (match i with
                        | SearchFlights _ _ _ _ _ _ => "Flight search failed: "
                        | SearchHotels _ _ _ _ _ _ _ _ => "Hotel search failed: "
                        end ++ msg)))
  end.
Proof.
  intros Hsent Hnet Hok Hbody Htruthy Hshape.
  apply tool_after in Hsent as (Hkey & params & -> & Hrun).
  erewrite Hrun by (eapply execute_success; eassumption).
  destruct i;
    unfold interpret_flights, interpret_hotels, flights_failed, hotels_failed,
           try_except, bind, lift, ret;
    rewrite Htruthy; cbn [negb];
    (destruct doc as [|b|n|f|s|items|fields];
     [ discriminate Htruthy
     | eexists; reflexivity
     | eexists; reflexivity
     | eexists; reflexivity
     | cbn [Py.contains]; destruct (Py.str_contains "error" s);
       [reflexivity | eexists; reflexivity]
     | cbn [Py.contains]; destruct (existsb (Py.str_eq "error") items);
       [reflexivity | eexists; reflexivity]
     | now destruct (Hshape fields) ]).
Qed.

End NotAnObject.

(** ** [best_flights] that is not an array *)

Section LooseBestFlights.

Variable float_repr : spec_float -> string.
Variable repr : json -> string.
Variable api_key : option string.
Variable network : dict -> outcome response.

Local Abbreviation flights := (search_flights float_repr repr api_key network).
Local Abbreviation dumps := (json_dumps float_repr).

(** X16. No schema is put on [best_flights]: a truthy value that has a
    length (a non-empty array, string or object) is returned as it came,
    and a truthy value that has none (a number, [true]) is refused by the
    log line that formats its length, which gives the error document
    [Flight search failed: ...]. In both cases [other_flights] is not looked
    at. *)
Theorem truthy_best_flights_returned_or_refused
    dep arr out rdate adults children (q : dict) (r : response)
    (fields : dict) (best : json) :
  requests (flights dep arr out rdate adults children) = [q] ->
  network q = Ok r ->
  is_success r = true ->
  content r = Parsed (JObj fields) ->
  Py.dict_mem fields "error" = false ->
  Py.dict_get fields "best_flights" = Some best ->
  Py.truthy best = true ->
  match best with
  | JArr _ | JStr _ | JObj _ =>
      result (flights dep arr out rdate adults children) = Ok (dumps best)
  | _ =>
      exists msg,
        result (flights dep arr out rdate adults children) =
          Ok (dumps (error_doc ("Flight search failed: " ++ msg)))
  end.
Proof.
  intros Hsent Hnet Hok Hbody Herr Hbest Htruthy.
  apply flights_after in Hsent as (Hkey & -> & Hrun).
  erewrite Hrun by (eapply execute_success; eassumption).
  destruct fields as [|kv fields']; [discriminate|].
  unfold interpret_flights, flights_failed, try_except, bind, lift, ret.
  cbn [Py.truthy Py.contains Py.get negb]. rewrite Herr, Hbest, Htruthy.
  cbn [negb]. destruct best; try reflexivity; eexists; reflexivity.
Qed.

End LooseBestFlights.

(** ** These properties at sample runs *)


Lemma transport_failure_is_request_failed_witness :
  result (call_tool sample_float_repr sample_repr (Some "key")
            (fun _ => Raise (Exc TransportError "timed out")) sample_hotels) =
    Ok (json_dumps sample_float_repr (error_doc "Request failed: timed out")).
Proof.
  exact (transport_failure_is_request_failed
           sample_float_repr sample_repr (Some "key")
           (fun _ => Raise (Exc TransportError "timed out")) sample_hotels
           _ TransportError "timed out" eq_refl eq_refl).
Defined.

Lemma malformed_body_is_request_failed_witness :
  result (call_tool sample_float_repr sample_repr (Some "key")
            (answering (Response 200 "" (NotJson "Expecting value")))
            sample_flights) =
    Ok (json_dumps sample_float_repr
          (error_doc "Request failed: Expecting value")).
Proof.
  exact (malformed_body_is_request_failed
           sample_float_repr sample_repr (Some "key")
           (answering (Response 200 "" (NotJson "Expecting value")))
           sample_flights _ _ "Expecting value"
           eq_refl eq_refl eq_refl eq_refl).
Defined.

Lemma no_flights_lists_the_keys_witness :
  result (search_flights sample_float_repr sample_repr (Some "key")
            (answering (ok_response
               (JObj [ ("search_metadata", JObj []);
                       ("best_flights", JArr []);
                       ("price_insights", JNull) ])))
            "JFK" "LHR" "2025-12-15" None 1 0) =
    Ok (json_dumps sample_float_repr
          (JObj [ ("message", JStr "No flights found");
                  ("available_keys",
                   JArr [ JStr "search_metadata"; JStr "best_flights";
                          JStr "price_insights" ]) ])).
Proof.
  eapply no_flights_lists_the_keys
    with (fields := [ ("search_metadata", JObj []);
                      ("best_flights", JArr []);
                      ("price_insights", JNull) ]).
  - reflexivity.
  - reflexivity.
  - reflexivity.
  - reflexivity.
  - discriminate.
  - reflexivity.
  - reflexivity.
  - exact I.
Defined.

Lemma no_hotels_lists_the_keys_witness :
  result (search_hotels sample_float_repr sample_repr (Some "key")
            (answering (ok_response
               (JObj [ ("search_metadata", JObj []);
                       ("brands", JArr [JStr "Accor"]) ])))
            "Paris" "2025-12-15" "2025-12-20" 2 0 1 None 8) =
    Ok (json_dumps sample_float_repr
          (JObj [ ("message", JStr "No hotels found");
                  ("available_keys",
                   JArr [ JStr "search_metadata"; JStr "brands" ]) ])).
Proof.
  eapply no_hotels_lists_the_keys
    with (fields := [ ("search_metadata", JObj []);
                      ("brands", JArr [JStr "Accor"]) ]).
  - reflexivity.
  - reflexivity.
  - reflexivity.
  - reflexivity.
  - discriminate.
  - reflexivity.
  - exact I.
Defined.

Lemma few_other_flights_all_returned_witness :
  result (search_flights sample_float_repr sample_repr (Some "key")
            (answering (ok_response
               (JObj [ ("other_flights", JArr (map flight [610; 540; 700])) ])))
            "JFK" "LHR" "2025-12-15" None 1 0) =
    Ok (json_dumps sample_float_repr
          (JObj [ ("message",
                   JStr "No best flights found, showing other options");
                  ("flights", JArr (map flight [610; 540; 700])) ])).
Proof.
  eapply few_other_flights_all_returned
    with (fields := [ ("other_flights", JArr (map flight [610; 540; 700])) ]).
  - reflexivity.
  - reflexivity.
  - reflexivity.
  - reflexivity.
  - reflexivity.
  - exact I.
  - reflexivity.
  - discriminate.
  - cbn. lia.
Defined.


Lemma hotels_query_on_the_wire_witness :
  requests (search_hotels sample_float_repr sample_repr (Some "key")
              (answering (ok_response (JObj [])))
              "Paris" "2025-12-15" "2025-12-20" 0 0 0 (Some "3,4") 13) =
    [ [ ("engine", JStr "google_hotels"); ("hl", JStr "en");
        ("gl", JStr "us"); ("q", JStr "Paris");
        ("check_in_date", JStr "2025-12-15");
        ("check_out_date", JStr "2025-12-20");
        ("currency", JStr "USD"); ("adults", JInt 1); ("children", JInt 0);
        ("rooms", JInt 1); ("sort_by", JInt 13);
        ("hotel_class", JStr "3,4"); ("api_key", JStr "key") ] ].
Proof.
  exact (hotels_query_on_the_wire
           sample_float_repr sample_repr
           (answering (ok_response (JObj [])))
           "key" "Paris" "2025-12-15" "2025-12-20" 0 0 0 (Some "3,4") 13
           ltac:(discriminate) ltac:(lia) ltac:(lia) ltac:(lia) ltac:(lia)).
Defined.

Lemma hotel_class_only_when_given_witness :
  exists q,
    requests (search_hotels sample_float_repr sample_repr (Some "key")
                (answering (ok_response (JObj [])))
                "Paris" "2025-12-15" "2025-12-20" 2 0 1 (Some "") 8) = [q] /\
    Py.dict_get q "hotel_class" = None.
Proof.
  eexists. split; [reflexivity|].
  exact (hotel_class_only_when_given
           sample_float_repr sample_repr
           (answering (ok_response (JObj []))) (Some "key")
           "Paris" "2025-12-15" "2025-12-20" 2 0 1 (Some "") 8 _ eq_refl).
Defined.

Lemma search_flights_never_raises_witness :
  exists doc,
    result (search_flights sample_float_repr sample_repr (Some "key")
              (answering (ok_response (JInt 7)))
              "JFK" "LHR" "2025-12-15" None 1 0) =
      Ok (json_dumps sample_float_repr doc) /\
    json_dumps sample_float_repr doc <> "".
Proof.
  exact (search_flights_never_raises
           sample_float_repr sample_repr
           (answering (ok_response (JInt 7))) (Some "key")
           "JFK" "LHR" "2025-12-15" None 1 0
           (fun f => ltac:(discriminate))).
Defined.

Lemma search_hotels_returns_in_range_witness :
  exists doc,
    result (search_hotels sample_float_repr sample_repr None
              (answering (ok_response (JObj [])))
              "Paris" "2025-12-15" "2025-12-20" (2 ^ 53) (- 2 ^ 53) 0 None 8) =
      Ok (json_dumps sample_float_repr doc).
Proof.
  exact (search_hotels_returns_in_range
           sample_float_repr sample_repr
           (answering (ok_response (JObj []))) None
           "Paris" "2025-12-15" "2025-12-20" (2 ^ 53) (- 2 ^ 53) 0 None 8
           ltac:(lia) ltac:(lia) ltac:(lia) ltac:(lia)).
Defined.

Lemma huge_count_raises_overflow_witness :
  result (search_hotels sample_float_repr sample_repr (Some "key")
            (answering (ok_response (JObj [])))
            "Paris" "2025-12-15" "2025-12-20" 2 0 1 None (- 2 ^ 1024)) =
    Raise (Exc OverflowError "int too large to convert to float") /\
  requests (search_hotels sample_float_repr sample_repr (Some "key")
              (answering (ok_response (JObj [])))
              "Paris" "2025-12-15" "2025-12-20" 2 0 1 None (- 2 ^ 1024)) = [].
Proof.
  exact (huge_count_raises_overflow
           sample_float_repr sample_repr (Some "key")
           (answering (ok_response (JObj [])))
           "Paris" "2025-12-15" "2025-12-20" 2 0 1 None (- 2 ^ 1024)
           ltac:(right; right; right; cbn; lia)).
Defined.

Lemma non_object_document_echoed_or_refused_witness :
  result (call_tool sample_float_repr sample_repr (Some "key")
            (answering (ok_response (JArr [JStr "error"; JInt 1])))
            sample_flights) =
    Ok (json_dumps sample_float_repr (JArr [JStr "error"; JInt 1])) /\
  exists msg,
    result (call_tool sample_float_repr sample_repr (Some "key")
              (answering (ok_response (JArr [JInt 1])))
              sample_hotels) =
      Ok (json_dumps sample_float_repr
            (error_doc ("Hotel search failed: " ++ msg))).
Proof.
  split.
  - exact (non_object_document_echoed_or_refused
             sample_float_repr sample_repr (Some "key")
             (answering (ok_response (JArr [JStr "error"; JInt 1])))
             sample_flights _ _ (JArr [JStr "error"; JInt 1])
             eq_refl eq_refl eq_refl eq_refl eq_refl
             (fun fields => ltac:(discriminate))).
  - exact (non_object_document_echoed_or_refused
             sample_float_repr sample_repr (Some "key")
             (answering (ok_response (JArr [JInt 1])))
             sample_hotels _ _ (JArr [JInt 1])
             eq_refl eq_refl eq_refl eq_refl eq_refl
             (fun fields => ltac:(discriminate))).
Defined.

Lemma truthy_best_flights_returned_or_refused_witness :
  (exists msg,
     result (search_flights sample_float_repr sample_repr (Some "key")
               (answering (ok_response
                  (JObj [ ("best_flights", JInt 3);
                          ("other_flights", JArr [flight 610]) ])))
               "JFK" "LHR" "2025-12-15" None 1 0) =
       Ok (json_dumps sample_float_repr
             (error_doc ("Flight search failed: " ++ msg)))) /\
  result (search_flights sample_float_repr sample_repr (Some "key")
            (answering (ok_response
               (JObj [ ("best_flights", JStr "none today") ])))
            "JFK" "LHR" "2025-12-15" None 1 0) =
    Ok (json_dumps sample_float_repr (JStr "none today")).
Proof.
  split.
  - refine (truthy_best_flights_returned_or_refused
              sample_float_repr sample_repr (Some "key")
              (answering (ok_response
                 (JObj [ ("best_flights", JInt 3);
                         ("other_flights", JArr [flight 610]) ])))
              "JFK" "LHR" "2025-12-15" None 1 0 _ (ok_response _)
              [ ("best_flights", JInt 3); ("other_flights", JArr [flight 610]) ]
              (JInt 3) _ _ _ _ _ _ _); reflexivity.
  - refine (truthy_best_flights_returned_or_refused
              sample_float_repr sample_repr (Some "key")
              (answering (ok_response
                 (JObj [ ("best_flights", JStr "none today") ])))
              "JFK" "LHR" "2025-12-15" None 1 0 _ (ok_response _)
              [ ("best_flights", JStr "none today") ]
              (JStr "none today") _ _ _ _ _ _ _); reflexivity.
Defined.
